(** * Cancer Cell Detection desktop application: model and properties

    A shallow embedding of [cancer_detection_app.py].  The application is a
    Tk controller class, [CancerDetectionApp]; every method mutates [self],
    the widgets, the configuration file, the log file, and may open a
    blocking message box.  All of this is one record, [app], threaded
    through a state-and-exception monad [M], so that a handler that raises
    half way keeps the assignments it made before the exception, exactly as
    the Python object does.

    Conventions.
    - Python [float] and numpy [float32] values are idealised as exact
      rationals ([Q]); comparisons are the rational order.  The float
      arithmetic of [resize_image_aspect_ratio], where rounding decides
      the integer result, is written once over an interface of Python
      numbers and instantiated both with exact rationals (for the general
      theorems) and with IEEE binary64 (to run the code as CPython does).
    - Calls into Pillow, Keras, the file dialogs and the clock are inputs
      of the handlers: what the library returned, or the exception it
      raised. Text files are written without failure.
    - Pure layout calls (frames, fonts, colours of static widgets, pack and
      place geometry) have no model; the leading emoji glyph of the two
      result texts is dropped from the string literals. *)

From Stdlib Require Import ZArith QArith Qround Qabs Floats Lia Lqa.
From Stdlib Require Import Ascii String.
From stdpp Require Import gmap strings list pretty.

Local Open Scope string_scope.
Local Open Scope Z_scope.

(** ** Python exceptions and results *)

Inductive exn_class :=
| FileNotFoundError
| OSError
| JSONDecodeError
| KeyError
| IndexError
| TypeError
| ValueError
| AttributeError
| ZeroDivisionError.

(** An exception object: its class and [str(e)]. *)
Record exn := Exn { exn_cls : exn_class; exn_str : string }.

Inductive result (A : Type) :=
| Ok (a : A)
| Raise (e : exn).
Arguments Ok {A} a.
Arguments Raise {A} e.

(** [except FileNotFoundError]: the class has no subclass in this model. *)
Definition is_FileNotFoundError (e : exn) : bool :=
  match exn_cls e with FileNotFoundError => true | _ => false end.

(** ** Python numbers used by the resize arithmetic

    [true_div a b] is [a / b] on two [int]s (a [float]), [int_mul n x] is
    [n * x] for an [int] and a [float], [fmin] is the builtin [min] on two
    floats and [to_int] is [int(x)], truncation toward zero. *)

Class PyNumber (F : Type) := {
  true_div : Z -> Z -> F;
  int_mul : Z -> F -> F;
  fmin : F -> F -> F;
  to_int : F -> Z
}.

(** Exact rationals. [min(a, b)] returns [b] only when [b < a]. *)
Definition Qtrunc (q : Q) : Z := Z.quot (Qnum q) (Zpos (Qden q)).

#[global] Instance exact_number : PyNumber Q := {|
  true_div a b := Qmake a 1 / Qmake b 1;
  int_mul n x := Qmake n 1 * x;
  fmin a b := if Qlt_le_dec b a then b else a;
  to_int := Qtrunc
|}%Q.

(** IEEE binary64, the arithmetic of CPython's [float]. *)
Module B64.

Definition of_Z (z : Z) : float :=
  match z with
  | Zneg p => PrimFloat.opp (PrimFloat.of_uint63 (Uint63.of_Z (Zpos p)))
  | _ => PrimFloat.of_uint63 (Uint63.of_Z z)
  end.

Definition trunc (f : float) : Z :=
  match Prim2SF f with
  | S754_finite s m e =>
      let v := match e with
               | Z0 => Zpos m
               | Zpos p => Z.shiftl (Zpos m) (Zpos p)
               | Zneg p => Z.shiftr (Zpos m) (Zpos p)
               end in
      if s then Z.opp v else v
  | _ => 0
  end.

#[global] Instance number : PyNumber float := {|
  true_div a b := PrimFloat.div (of_Z a) (of_Z b);
  int_mul n x := PrimFloat.mul (of_Z n) x;
  fmin a b := if PrimFloat.ltb b a then b else a;
  to_int := trunc
|}.

End B64.

(** ** Pillow images *)

(** [pixels] is the raster: rows, each a list of pixels, each a list of
    band values. *)
Record pil_image := PilImage {
  mode : string;
  size : Z * Z;
  pixels : list (list (list Z))
}.

(** The resampling filter of [resize]: the one named, or Pillow's default. *)
Inductive resampling := LANCZOS | DEFAULT.

(** What Pillow answered to the calls the application makes.
    [PhotoImage] returns the size of the Tk photo it created. *)
Record PIL := {
  Image_open : string -> result pil_image;
  Image_convert : string -> pil_image -> result pil_image;
  Image_resample : resampling -> Z * Z -> pil_image -> result pil_image;
  PhotoImage : pil_image -> result (Z * Z)
}.

(** [img.resize(size, resample)]: Pillow rejects an empty target before
    resampling. *)
Definition Image_resize (pil : PIL) (target : Z * Z) (resample : resampling)
    (img : pil_image) : result pil_image :=
  if (fst target <? 1) || (snd target <? 1)
  then Raise (Exn ValueError "height and width must be > 0")
  else Image_resample pil resample target img.

(** Lines 322-326. The two divisions raise [ZeroDivisionError] on a zero
    side. *)
Definition new_size {F} `{PyNumber F} (img_size max_size : Z * Z) : Z * Z :=
  let '(width, height) := img_size in
  let ratio : F := fmin (true_div (fst max_size) width)
                        (true_div (snd max_size) height) in
  (to_int (int_mul width ratio), to_int (int_mul height ratio)).

Definition resize_image_aspect_ratio {F} `{PyNumber F}
    (pil : PIL) (img : pil_image) (max_size : Z * Z) : result pil_image :=
  let '(width, height) := size img in
  if (width =? 0) || (height =? 0)
  then Raise (Exn ZeroDivisionError "division by zero")
  else Image_resize pil (new_size (F:=F) (size img) max_size) LANCZOS img.

(** ** JSON values and the text files of the application *)

#[warnings="-register-all"] Inductive json :=
| JNull
| JBool (b : bool)
| JInt (z : Z)
| JFloat (q : Q)
| JStr (s : string)
| JArr (l : list json)
| JObj (m : gmap string json).

(** A text file either holds a JSON document (identified with the value
    [json.load] parses from it, [json.dump] writes it) or other text, on
    which [json.load] raises. *)
Inductive file :=
| JsonDoc (v : json)
| Text (s : string).

(** Python numbers as they come out of a JSON document. *)
Inductive number :=
| NInt (z : Z)
| NFloat (q : Q)
| NBool (b : bool).

Definition number_of_json (j : json) : option number :=
  match j with
  | JInt z => Some (NInt z)
  | JFloat q => Some (NFloat q)
  | JBool b => Some (NBool b)
  | _ => None
  end.

Definition number_value (n : number) : Q :=
  match n with
  | NInt z => inject_Z z
  | NFloat q => q
  | NBool b => if b then 1%Q else 0%Q
  end.

(** ** Text formatting *)

Definition round_half_even (q : Q) : Z :=
  let f := Qfloor q in
  match Qcompare (q - inject_Z f) (1 # 2) with
  | Lt => f
  | Gt => f + 1
  | Eq => if Z.even f then f else f + 1
  end.

Fixpoint zero_pad (width : nat) (s : string) : string :=
  match width with
  | O => s
  | S w => if (String.length s <? width)%nat
           then zero_pad w ("0" +:+ s) else s
  end.

(** [f"{q:.<d>f}"]. *)
Definition format_fixed (d : nat) (q : Q) : string :=
  let unit := 10 ^ Z.of_nat d in
  let scaled := round_half_even (Qabs q * inject_Z unit) in
  (if Qlt_le_dec q 0 then "-" else "")
  +:+ pretty (scaled / unit)
  +:+ (if d is O then "" else "." +:+ zero_pad d (pretty (scaled mod unit))).

(** [f"{q:.<d>%}"]. *)
Definition format_percent (d : nat) (q : Q) : string :=
  format_fixed d (q * 100) +:+ "%".

(** [str] of a number; a float prints with the fewest decimals (at least
    one, at most 17) that represent it exactly. *)
Fixpoint decimals_needed (fuel : nat) (d : nat) (q : Q) : nat :=
  match fuel with
  | O => d
  | S fuel' =>
      if Qeq_bool (inject_Z (Qfloor (q * inject_Z (10 ^ Z.of_nat d))))
                  (q * inject_Z (10 ^ Z.of_nat d))
      then d else decimals_needed fuel' (S d) q
  end.

Definition number_str (n : number) : string :=
  match n with
  | NInt z => pretty z
  | NFloat q => format_fixed (decimals_needed 16 1 q) q
  | NBool b => if b then "True" else "False"
  end.

(** [os.path.basename] and [os.path.join] on POSIX paths. *)
Fixpoint basename_from (acc s : string) : string :=
  match s with
  | EmptyString => acc
  | String c s' =>
      if Ascii.eqb c "/"%char then basename_from "" s'
      else basename_from (acc +:+ String c "") s'
  end.

Definition basename (path : string) : string := basename_from "" path.

Fixpoint ends_with_slash (s : string) : bool :=
  match s with
  | EmptyString => false
  | String c EmptyString => Ascii.eqb c "/"%char
  | String _ s' => ends_with_slash s'
  end.

Definition path_join (base rel : string) : string :=
  match rel with
  | String c _ =>
      if Ascii.eqb c "/"%char then rel
      else if ends_with_slash base || String.eqb base "" then base +:+ rel
      else base +:+ "/" +:+ rel
  | EmptyString => if ends_with_slash base || String.eqb base "" then base
                   else base +:+ "/"
  end.

(** Lines 21-28: [base_path] is [sys._MEIPASS] when bundled and the
    absolute path of the working directory otherwise. *)
Definition resource_path (base_path relative_path : string) : string :=
  path_join base_path relative_path.

(** ** numpy *)

Fixpoint argmax_from (best : Q) (best_i i : nat) (l : list Q) : nat :=
  match l with
  | [] => best_i
  | x :: l' =>
      if Qlt_le_dec best x then argmax_from x i (S i) l'
      else argmax_from best best_i (S i) l'
  end.

(** [np.argmax] of one row: the first index of the maximum. *)
Definition np_argmax (row : list Q) : result nat :=
  match row with
  | [] => Raise (Exn ValueError "attempt to get argmax of an empty sequence")
  | x :: l => Ok (argmax_from x 0 1 l)
  end.

Definition array3 := list (list (list Q)).
Definition array4 := list array3.

(** [img_to_array]: height x width x bands, then [np.expand_dims(_, 0)] and
    the division by [255.0]. *)
Definition img_to_array (img : pil_image) : array3 :=
  map (map (map inject_Z)) (pixels img).

Definition expand_dims (a : array3) : array4 := [a].

Definition array_div (a : array4) (d : Q) : array4 :=
  map (map (map (map (fun x => x / d)%Q))) a.

(** A loaded Keras model: [model.predict], one row of class probabilities
    per image of the batch. *)
Definition keras_model := array4 -> result (list (list Q)).

(** ** The application object *)

Inductive level := INFO | WARNING | ERROR.

Inductive dialog_kind := showinfo | showwarning | showerror.

Record dialog := Dialog {
  dlg_kind : dialog_kind;
  dlg_title : string;
  dlg_message : string
}.

Inductive button_state := disabled | normal.

(** A Treeview cell of the Metrics tab: formatted text, or the [str] of a
    configuration value. *)
Inductive cell :=
| CellText (s : string)
| CellValue (v : json).

(** The [values] tuple of a History row. *)
Record history_row := HistoryRow {
  row_date : string;
  row_filename : string;
  row_result : string;
  row_confidence : string
}.

(** A bar of the confidence chart: class, width, and its text label. *)
Record bar := Bar { bar_class : string; bar_width : Q; bar_text : option string }.

Record app := App {
  (* the world outside the object *)
  files : gmap string file;
  log : list (level * string);
  dialogs : list dialog;
  inferences : list array4;
  (* attributes *)
  config : json;
  image_path : option string;
  model : option keras_model;
  model_loaded : bool;
  prediction_made : bool;
  confidence_scores : option (list Q);
  (* widgets *)
  predict_button : button_state;
  status_var : string;
  placeholder_label : bool;
  image_label : option (Z * Z);
  result_label : string * string;
  confidence_label : string;
  confidence_bar : Q;
  image_info_label : string;
  ax1 : list bar;
  metrics_tree : list (string * cell);
  history_tree : list history_row;
  tab_control : nat;
  progress : bool
}.

(** Attribute and widget assignment: one setter per field. *)
Definition set_files (v : gmap string file) (s : app) : app :=
  App v (log s) (dialogs s) (inferences s) (config s) (image_path s) (model
      s) (model_loaded s) (prediction_made s) (confidence_scores s)
      (predict_button s) (status_var s) (placeholder_label s) (image_label
      s) (result_label s) (confidence_label s) (confidence_bar s)
      (image_info_label s) (ax1 s) (metrics_tree s) (history_tree s)
      (tab_control s) (progress s).
Definition set_log (v : list (level * string)) (s : app) : app :=
  App (files s) v (dialogs s) (inferences s) (config s) (image_path s)
      (model s) (model_loaded s) (prediction_made s) (confidence_scores s)
      (predict_button s) (status_var s) (placeholder_label s) (image_label
      s) (result_label s) (confidence_label s) (confidence_bar s)
      (image_info_label s) (ax1 s) (metrics_tree s) (history_tree s)
      (tab_control s) (progress s).
Definition set_dialogs (v : list dialog) (s : app) : app :=
  App (files s) (log s) v (inferences s) (config s) (image_path s) (model s)
      (model_loaded s) (prediction_made s) (confidence_scores s)
      (predict_button s) (status_var s) (placeholder_label s) (image_label
      s) (result_label s) (confidence_label s) (confidence_bar s)
      (image_info_label s) (ax1 s) (metrics_tree s) (history_tree s)
      (tab_control s) (progress s).
Definition set_inferences (v : list array4) (s : app) : app :=
  App (files s) (log s) (dialogs s) v (config s) (image_path s) (model s)
      (model_loaded s) (prediction_made s) (confidence_scores s)
      (predict_button s) (status_var s) (placeholder_label s) (image_label
      s) (result_label s) (confidence_label s) (confidence_bar s)
      (image_info_label s) (ax1 s) (metrics_tree s) (history_tree s)
      (tab_control s) (progress s).
Definition set_config (v : json) (s : app) : app :=
  App (files s) (log s) (dialogs s) (inferences s) v (image_path s) (model
      s) (model_loaded s) (prediction_made s) (confidence_scores s)
      (predict_button s) (status_var s) (placeholder_label s) (image_label
      s) (result_label s) (confidence_label s) (confidence_bar s)
      (image_info_label s) (ax1 s) (metrics_tree s) (history_tree s)
      (tab_control s) (progress s).
Definition set_image_path (v : option string) (s : app) : app :=
  App (files s) (log s) (dialogs s) (inferences s) (config s) v (model s)
      (model_loaded s) (prediction_made s) (confidence_scores s)
      (predict_button s) (status_var s) (placeholder_label s) (image_label
      s) (result_label s) (confidence_label s) (confidence_bar s)
      (image_info_label s) (ax1 s) (metrics_tree s) (history_tree s)
      (tab_control s) (progress s).
Definition set_model (v : option keras_model) (s : app) : app :=
  App (files s) (log s) (dialogs s) (inferences s) (config s) (image_path s)
      v (model_loaded s) (prediction_made s) (confidence_scores s)
      (predict_button s) (status_var s) (placeholder_label s) (image_label
      s) (result_label s) (confidence_label s) (confidence_bar s)
      (image_info_label s) (ax1 s) (metrics_tree s) (history_tree s)
      (tab_control s) (progress s).
Definition set_model_loaded (v : bool) (s : app) : app :=
  App (files s) (log s) (dialogs s) (inferences s) (config s) (image_path s)
      (model s) v (prediction_made s) (confidence_scores s) (predict_button
      s) (status_var s) (placeholder_label s) (image_label s) (result_label
      s) (confidence_label s) (confidence_bar s) (image_info_label s) (ax1
      s) (metrics_tree s) (history_tree s) (tab_control s) (progress s).
Definition set_prediction_made (v : bool) (s : app) : app :=
  App (files s) (log s) (dialogs s) (inferences s) (config s) (image_path s)
      (model s) (model_loaded s) v (confidence_scores s) (predict_button s)
      (status_var s) (placeholder_label s) (image_label s) (result_label s)
      (confidence_label s) (confidence_bar s) (image_info_label s) (ax1 s)
      (metrics_tree s) (history_tree s) (tab_control s) (progress s).
Definition set_confidence_scores (v : option (list Q)) (s : app) : app :=
  App (files s) (log s) (dialogs s) (inferences s) (config s) (image_path s)
      (model s) (model_loaded s) (prediction_made s) v (predict_button s)
      (status_var s) (placeholder_label s) (image_label s) (result_label s)
      (confidence_label s) (confidence_bar s) (image_info_label s) (ax1 s)
      (metrics_tree s) (history_tree s) (tab_control s) (progress s).
Definition set_predict_button (v : button_state) (s : app) : app :=
  App (files s) (log s) (dialogs s) (inferences s) (config s) (image_path s)
      (model s) (model_loaded s) (prediction_made s) (confidence_scores s) v
      (status_var s) (placeholder_label s) (image_label s) (result_label s)
      (confidence_label s) (confidence_bar s) (image_info_label s) (ax1 s)
      (metrics_tree s) (history_tree s) (tab_control s) (progress s).
Definition set_status_var (v : string) (s : app) : app :=
  App (files s) (log s) (dialogs s) (inferences s) (config s) (image_path s)
      (model s) (model_loaded s) (prediction_made s) (confidence_scores s)
      (predict_button s) v (placeholder_label s) (image_label s)
      (result_label s) (confidence_label s) (confidence_bar s)
      (image_info_label s) (ax1 s) (metrics_tree s) (history_tree s)
      (tab_control s) (progress s).
Definition set_placeholder_label (v : bool) (s : app) : app :=
  App (files s) (log s) (dialogs s) (inferences s) (config s) (image_path s)
      (model s) (model_loaded s) (prediction_made s) (confidence_scores s)
      (predict_button s) (status_var s) v (image_label s) (result_label s)
      (confidence_label s) (confidence_bar s) (image_info_label s) (ax1 s)
      (metrics_tree s) (history_tree s) (tab_control s) (progress s).
Definition set_image_label (v : option (Z * Z)) (s : app) : app :=
  App (files s) (log s) (dialogs s) (inferences s) (config s) (image_path s)
      (model s) (model_loaded s) (prediction_made s) (confidence_scores s)
      (predict_button s) (status_var s) (placeholder_label s) v
      (result_label s) (confidence_label s) (confidence_bar s)
      (image_info_label s) (ax1 s) (metrics_tree s) (history_tree s)
      (tab_control s) (progress s).
Definition set_result_label (v : string * string) (s : app) : app :=
  App (files s) (log s) (dialogs s) (inferences s) (config s) (image_path s)
      (model s) (model_loaded s) (prediction_made s) (confidence_scores s)
      (predict_button s) (status_var s) (placeholder_label s) (image_label
      s) v (confidence_label s) (confidence_bar s) (image_info_label s) (ax1
      s) (metrics_tree s) (history_tree s) (tab_control s) (progress s).
Definition set_confidence_label (v : string) (s : app) : app :=
  App (files s) (log s) (dialogs s) (inferences s) (config s) (image_path s)
      (model s) (model_loaded s) (prediction_made s) (confidence_scores s)
      (predict_button s) (status_var s) (placeholder_label s) (image_label
      s) (result_label s) v (confidence_bar s) (image_info_label s) (ax1 s)
      (metrics_tree s) (history_tree s) (tab_control s) (progress s).
Definition set_confidence_bar (v : Q) (s : app) : app :=
  App (files s) (log s) (dialogs s) (inferences s) (config s) (image_path s)
      (model s) (model_loaded s) (prediction_made s) (confidence_scores s)
      (predict_button s) (status_var s) (placeholder_label s) (image_label
      s) (result_label s) (confidence_label s) v (image_info_label s) (ax1
      s) (metrics_tree s) (history_tree s) (tab_control s) (progress s).
Definition set_image_info_label (v : string) (s : app) : app :=
  App (files s) (log s) (dialogs s) (inferences s) (config s) (image_path s)
      (model s) (model_loaded s) (prediction_made s) (confidence_scores s)
      (predict_button s) (status_var s) (placeholder_label s) (image_label
      s) (result_label s) (confidence_label s) (confidence_bar s) v (ax1 s)
      (metrics_tree s) (history_tree s) (tab_control s) (progress s).
Definition set_ax1 (v : list bar) (s : app) : app :=
  App (files s) (log s) (dialogs s) (inferences s) (config s) (image_path s)
      (model s) (model_loaded s) (prediction_made s) (confidence_scores s)
      (predict_button s) (status_var s) (placeholder_label s) (image_label
      s) (result_label s) (confidence_label s) (confidence_bar s)
      (image_info_label s) v (metrics_tree s) (history_tree s) (tab_control
      s) (progress s).
Definition set_metrics_tree (v : list (string * cell)) (s : app) : app :=
  App (files s) (log s) (dialogs s) (inferences s) (config s) (image_path s)
      (model s) (model_loaded s) (prediction_made s) (confidence_scores s)
      (predict_button s) (status_var s) (placeholder_label s) (image_label
      s) (result_label s) (confidence_label s) (confidence_bar s)
      (image_info_label s) (ax1 s) v (history_tree s) (tab_control s)
      (progress s).
Definition set_history_tree (v : list history_row) (s : app) : app :=
  App (files s) (log s) (dialogs s) (inferences s) (config s) (image_path s)
      (model s) (model_loaded s) (prediction_made s) (confidence_scores s)
      (predict_button s) (status_var s) (placeholder_label s) (image_label
      s) (result_label s) (confidence_label s) (confidence_bar s)
      (image_info_label s) (ax1 s) (metrics_tree s) v (tab_control s)
      (progress s).
Definition set_tab_control (v : nat) (s : app) : app :=
  App (files s) (log s) (dialogs s) (inferences s) (config s) (image_path s)
      (model s) (model_loaded s) (prediction_made s) (confidence_scores s)
      (predict_button s) (status_var s) (placeholder_label s) (image_label
      s) (result_label s) (confidence_label s) (confidence_bar s)
      (image_info_label s) (ax1 s) (metrics_tree s) (history_tree s) v
      (progress s).
Definition set_progress (v : bool) (s : app) : app :=
  App (files s) (log s) (dialogs s) (inferences s) (config s) (image_path s)
      (model s) (model_loaded s) (prediction_made s) (confidence_scores s)
      (predict_button s) (status_var s) (placeholder_label s) (image_label
      s) (result_label s) (confidence_label s) (confidence_bar s)
      (image_info_label s) (ax1 s) (metrics_tree s) (history_tree s)
      (tab_control s) v.

(** ** The monad of methods: state and exceptions *)

Definition M (A : Type) : Type := app -> result A * app.

Definition ret {A} (a : A) : M A := fun s => (Ok a, s).

(** Sequencing stops at the first exception and keeps the state reached. *)
Definition bind {A B} (m : M A) (f : A -> M B) : M B :=
  fun s =>
    match m s with
    | (Ok a, s') => f a s'
    | (Raise e, s') => (Raise e, s')
    end.

Declare Scope method_scope.
Notation "x ← y ; z" := (bind y (fun x => z))
  (at level 20, y at level 100, z at level 200, only parsing) : method_scope.
Notation "x ;; z" := (bind x (fun _ => z))
  (at level 100, z at level 200, only parsing, right associativity)
  : method_scope.
Local Open Scope method_scope.

(** The statement [pass], and a bare [return]. *)
Definition pass : M unit := ret tt.

Definition raise {A} (e : exn) : M A := fun s => (Raise e, s).

Definition lift {A} (r : result A) : M A := fun s => (r, s).

Definition gets {A} (f : app -> A) : M A := fun s => (Ok (f s), s).

Definition modify (f : app -> app) : M unit := fun s => (Ok tt, f s).

(** [try: body / except <classes>: handler]; a handler re-raises what its
    clauses do not match. An exception raised inside a handler is not
    offered to the sibling clauses. *)
Definition try_except {A} (body : M A) (handler : exn -> M A) : M A :=
  fun s =>
    match body s with
    | (Ok a, s') => (Ok a, s')
    | (Raise e, s') => handler e s'
    end.

(** [try: body / finally: cleanup]. *)
Definition try_finally {A} (body : M A) (cleanup : M unit) : M A :=
  fun s =>
    match body s with
    | (r, s') =>
        match cleanup s' with
        | (Ok _, s'') => (r, s'')
        | (Raise e, s'') => (Raise e, s'')
        end
    end.

Fixpoint for_each {A} (l : list A) (body : A -> M unit) : M unit :=
  match l with
  | [] => pass
  | x :: l' => body x;; for_each l' body
  end.

(** Logging and message boxes. *)
Definition logging (lv : level) (msg : string) : M unit :=
  modify (fun s => set_log (log s ++ [(lv, msg)]) s).

Definition messagebox (k : dialog_kind) (title msg : string) : M unit :=
  modify (fun s => set_dialogs (dialogs s ++ [Dialog k title msg]) s).

(** Subscripts. [d[k]] on a JSON value, [l[i]] on a sequence. *)
Definition json_getitem (j : json) (k : string) : result json :=
  match j with
  | JObj m =>
      match m !! k with
      | Some v => Ok v
      | None => Raise (Exn KeyError ("'" +:+ k +:+ "'"))
      end
  | _ => Raise (Exn TypeError "indices must be integers")
  end.

Definition json_setitem (j : json) (k : string) (v : json) : result json :=
  match j with
  | JObj m => Ok (JObj (<[k := v]> m))
  | _ => Raise (Exn TypeError "object does not support item assignment")
  end.

Definition getitem {A} (l : list A) (i : nat) : result A :=
  match l !! i with
  | Some x => Ok x
  | None => Raise (Exn IndexError "index out of range")
  end.

(** [open(path, "r")] followed by [json.load], and [open(path, "w")]
    followed by [json.dump]. Writing always succeeds. *)
Definition open_read (path : string) : M file :=
  fun s =>
    match files s !! path with
    | Some f => (Ok f, s)
    | None => (Raise (Exn FileNotFoundError
                 ("[Errno 2] No such file or directory: '" +:+ path +:+ "'")), s)
    end.

Definition json_load (f : file) : M json :=
  match f with
  | JsonDoc v => ret v
  | Text _ => raise (Exn JSONDecodeError "Expecting value")
  end.

Definition json_dump (v : json) (path : string) : M unit :=
  modify (fun s => set_files (<[path := JsonDoc v]> (files s)) s).

(** ** Configuration (lines 60-72) *)

Definition default_config : json :=
  JObj (<["model_path" := JStr "cancer_detection_model.h5"]>
       (<["target_size" := JArr [JInt 48; JInt 48]]>
       (<["threshold" := JFloat (1 # 2)]> ∅))).

Definition load_config : M json :=
  try_except
    (f ← open_read "config.json"; json_load f)
    (fun e =>
       if is_FileNotFoundError e
       then json_dump default_config "config.json";; ret default_config
       else raise e).

(** ** Model loading (lines 74-97)

    [load_model] is Keras's loader as it answers for a path, [choice] is
    what the model file dialog returned (empty when cancelled). *)

Definition json_str (j : json) : result string :=
  match j with
  | JStr s => Ok s
  | _ => Raise (Exn TypeError "expected str, bytes or os.PathLike object")
  end.

(** The [try] block of [load_model_file]. *)
Definition load_default_model (base_path : string)
    (load_model : string -> result keras_model) : M unit :=
  cfg ← gets config;
  p ← lift (json_getitem cfg "model_path");
  rel ← lift (json_str p);
  m ← lift (load_model (resource_path base_path rel));
  modify (set_model (Some m));;
  modify (set_model_loaded true);;
  logging INFO "Model loaded successfully from default path".

Definition load_model_file (base_path : string)
    (load_model : string -> result keras_model) (choice : string) : M unit :=
  try_except
    (load_default_model base_path load_model)
    (fun e =>
       if is_FileNotFoundError e then
         logging WARNING "Default model not found, prompting user selection";;
         if String.eqb choice "" then pass
         else
           m ← lift (load_model choice);
           modify (set_model (Some m));;
           modify (set_model_loaded true);;
           cfg ← gets config;
           cfg' ← lift (json_setitem cfg "model_path" (JStr choice));
           modify (set_config cfg');;
           json_dump cfg' "config.json";;
           logging INFO ("Model loaded from user-selected path: " +:+ choice)
       else
         modify (set_model_loaded false);;
         logging ERROR ("Failed to load model: " +:+ exn_str e);;
         messagebox showerror "Model Error"
           ("Failed to load model: " +:+ exn_str e)).

(** ** Widgets (lines 99-283) *)

Definition create_results_tab : M unit :=
  modify (set_result_label ("No prediction yet", ""));;
  modify (set_confidence_label "Confidence: --");;
  modify (set_confidence_bar 0%Q);;
  modify (set_image_info_label "Image: None").

Definition create_metrics_tab : M unit :=
  modify (set_ax1 []);;
  cfg ← gets config;
  threshold ← lift (json_getitem cfg "threshold");
  modify (set_metrics_tree
    [("Class", CellText "--");
     ("Confidence Score", CellText "--");
     ("Non-Cancerous Probability", CellText "--");
     ("Cancerous Probability", CellText "--");
     ("Decision Threshold", CellValue threshold)]).

Definition create_history_tab : M unit :=
  modify (set_history_tree []).

Definition create_ui : M unit :=
  modify (set_placeholder_label true);;
  modify (set_predict_button disabled);;
  modify (set_status_var "Please upload an image to begin");;
  modify (set_tab_control 0%nat);;
  create_results_tab;;
  create_metrics_tab;;
  create_history_tab;;
  loaded ← gets model_loaded;
  if loaded then pass
  else messagebox showwarning "Model Not Found"
         "Please ensure a valid model file is available.".

(** [__init__] (lines 31-58). *)
Definition init (base_path : string)
    (load_model : string -> result keras_model) (choice : string) : M unit :=
  cfg ← load_config;
  modify (set_config cfg);;
  modify (set_image_path None);;
  modify (set_model None);;
  modify (set_model_loaded false);;
  modify (set_prediction_made false);;
  modify (set_confidence_scores None);;
  load_model_file base_path load_model choice;;
  create_ui.

(** The process before [__init__] runs: the files on disk, nothing else. *)
Definition blank (fs : gmap string file) : app :=
  App fs [] [] [] JNull None None false false None
      disabled "" false None ("", "") "" 0%Q "" [] [] [] 0%nat false.

(** ** Image upload (lines 285-326) *)

(** The builtin [min] over the configured target size, as a number the
    sizes of the image can be compared with: it raises where [min] raises
    and where the comparison of line 295 would. *)
Fixpoint min_number (cur : number) (l : list json) : result number :=
  match l with
  | [] => Ok cur
  | j :: l' =>
      match number_of_json j with
      | Some n =>
          min_number (if Qlt_le_dec (number_value n) (number_value cur)
                      then n else cur) l'
      | None => Raise (Exn TypeError "'<' not supported between instances")
      end
  end.

Definition py_min (j : json) : result number :=
  match j with
  | JArr [] => Raise (Exn ValueError "min() arg is an empty sequence")
  | JArr (x :: l) =>
      match number_of_json x with
      | Some n => min_number n l
      | None => Raise (Exn TypeError "'<' not supported between instances")
      end
  | JStr "" => Raise (Exn ValueError "min() arg is an empty sequence")
  | JStr _ => Raise (Exn TypeError "'<' not supported between instances")
  | JObj m =>
      if decide (m = ∅)
      then Raise (Exn ValueError "min() arg is an empty sequence")
      else Raise (Exn TypeError "'<' not supported between instances")
  | _ => Raise (Exn TypeError "object is not iterable")
  end.

Definition int_lt (a : Z) (n : number) : bool :=
  if Qlt_le_dec (inject_Z a) (number_value n) then true else false.

Definition load_and_display_image (pil : PIL) (file_path : string) : M unit :=
  modify (set_placeholder_label false);;
  img ← lift (Image_open pil file_path);
  img ← lift (resize_image_aspect_ratio (F:=Q) pil img (350, 350));
  photo ← lift (PhotoImage pil img);
  modify (set_image_label (Some photo)).

(** The [try] block of [upload_image]. *)
Definition upload_try (pil : PIL) (file_path : string) : M unit :=
  img ← lift (Image_open pil file_path);
  cfg ← gets config;
  ts ← lift (json_getitem cfg "target_size");
  min_size ← lift (py_min ts);
  if int_lt (fst (size img)) min_size || int_lt (snd (size img)) min_size
  then
    messagebox showwarning "Warning"
      ("Image must be at least " +:+ number_str min_size +:+ "x"
       +:+ number_str min_size +:+ " pixels.")
  else
    modify (set_image_path (Some file_path));;
    load_and_display_image pil file_path;;
    modify (set_status_var ("Image loaded: " +:+ basename file_path));;
    modify (set_predict_button normal);;
    modify (set_image_info_label ("Image: " +:+ basename file_path));;
    logging INFO ("Image uploaded: " +:+ file_path).

(** [file_path] is what the image file dialog returned. *)
Definition upload_image (pil : PIL) (file_path : string) : M unit :=
  if String.eqb file_path "" then pass
  else
    try_except
      (upload_try pil file_path)
      (fun e =>
         messagebox showerror "Error" ("Invalid image file: " +:+ exn_str e);;
         logging ERROR ("Image upload failed: " +:+ exn_str e)).

(** ** Preprocessing (lines 328-339) *)

Definition py_tuple (j : json) : result (list json) :=
  match j with
  | JArr l => Ok l
  | JStr s => Ok ((fun c => JStr (String c "")) <$> list_ascii_of_string s)
  | JObj m => Ok (JStr <$> (map_to_list m).*1)
  | _ => Raise (Exn TypeError "object is not iterable")
  end.

Definition json_int (j : json) : option Z :=
  match j with
  | JInt z => Some z
  | JBool b => Some (if b then 1 else 0)
  | _ => None
  end.

(** The [size] argument Pillow accepts: a pair of integers. *)
Definition size_of_tuple (t : list json) : result (Z * Z) :=
  match t with
  | [a; b] =>
      match json_int a, json_int b with
      | Some w, Some h => Ok (w, h)
      | _, _ => Raise (Exn TypeError "an integer is required")
      end
  | _ => Raise (Exn TypeError "size must be a pair of integers")
  end.

Definition preprocess_image (pil : PIL) (image : pil_image) : M array4 :=
  loaded ← gets model_loaded;
  if negb loaded then raise (Exn ValueError "Model not loaded")
  else
    cfg ← gets config;
    ts ← lift (json_getitem cfg "target_size");
    input_shape ← lift (py_tuple ts);
    image ← lift (if String.eqb (mode image) "RGB" then Ok image
                  else Image_convert pil "RGB" image);
    target ← lift (size_of_tuple input_shape);
    image ← lift (Image_resize pil target DEFAULT image);
    ret (array_div (expand_dims (img_to_array image)) 255%Q).

Fixpoint mapM_result {A B} (f : A -> result B) (l : list A) : result (list B) :=
  match l with
  | [] => Ok []
  | x :: l' =>
      match f x with
      | Ok y =>
          match mapM_result f l' with
          | Ok ys => Ok (y :: ys)
          | Raise e => Raise e
          end
      | Raise e => Raise e
      end
  end.

(** ** Results, metrics and history (lines 381-429) *)

(** [confidence >= threshold] against the configured value. *)
Definition ge_threshold (confidence : Q) (threshold : json) : result bool :=
  match number_of_json threshold with
  | Some t => Ok (if Qlt_le_dec confidence (number_value t) then false else true)
  | None => Raise (Exn TypeError "'>=' not supported between instances")
  end.

Definition update_results (class_index : nat) (scores : list Q) : M unit :=
  cfg ← gets config;
  threshold ← lift (json_getitem cfg "threshold");
  confidence ← lift (getitem scores class_index);
  positive ← lift (if (class_index =? 1)%nat
                   then ge_threshold confidence threshold else Ok false);
  (if positive : bool
   then modify (set_result_label ("CANCER DETECTED", "red"))
   else modify (set_result_label ("NO CANCER DETECTED", "green")));;
  modify (set_confidence_label
            ("Confidence: " +:+ format_percent 2 confidence));;
  modify (set_confidence_bar (confidence * 100)%Q).

(** [barh] broadcasts a single width over both classes and rejects any
    other length than two; the text labels follow [zip(bars, scores)]. *)
Definition barh (scores : list Q) : result (list bar) :=
  match scores with
  | [a] => Ok [Bar "Non-Cancerous" a (Some (format_percent 2 a));
               Bar "Cancerous" a None]
  | [a; b] => Ok [Bar "Non-Cancerous" a (Some (format_percent 2 a));
                  Bar "Cancerous" b (Some (format_percent 2 b))]
  | _ => Raise (Exn ValueError "shape mismatch: objects cannot be broadcast")
  end.

Definition set_metric (i : nat) (name value : string) : M unit :=
  modify (fun s => set_metrics_tree (<[i := (name, CellText value)]> (metrics_tree s)) s).

Definition update_metrics (class_index : nat) (scores : list Q) : M unit :=
  modify (set_ax1 []);;
  bars ← lift (barh scores);
  modify (set_ax1 bars);;
  rows ← gets metrics_tree;
  for_each (seq 0 (length rows)) (fun i =>
    match i with
    | 0%nat =>
        set_metric i "Class"
          (if (class_index =? 1)%nat then "Cancerous" else "Non-Cancerous")
    | 1%nat =>
        c ← lift (getitem scores class_index);
        set_metric i "Confidence Score" (format_fixed 4 c)
    | 2%nat =>
        c ← lift (getitem scores 0);
        set_metric i "Non-Cancerous Probability" (format_fixed 4 c)
    | 3%nat =>
        c ← lift (getitem scores 1);
        set_metric i "Cancerous Probability" (format_fixed 4 c)
    | _ => pass
    end).

(** [current_date] is [datetime.now()] already formatted. *)
Definition add_to_history (current_date : string)
    (class_index : nat) (scores : list Q) : M unit :=
  path ← gets image_path;
  filename ← lift (match path with
                   | Some p => Ok (basename p)
                   | None => Raise (Exn TypeError "expected str, not NoneType")
                   end);
  let result := if (class_index =? 1)%nat then "Cancer" else "No Cancer" in
  c ← lift (getitem scores class_index);
  let confidence := format_percent 2 c in
  modify (fun s => set_history_tree
            (HistoryRow current_date filename result confidence
               :: history_tree s) s).

(** Each child is deleted in turn; the one deleted is the first one left. *)
Definition clear_history : M unit :=
  rows ← gets history_tree;
  for_each rows (fun _ =>
    modify (fun s => set_history_tree (tail (history_tree s)) s));;
  logging INFO "History cleared".

(** ** Prediction (lines 341-379) *)

Definition show_scores (scores : list Q) : string :=
  "[" +:+ String.concat " " (format_fixed 8 <$> scores) +:+ "]".

Definition model_predict (x : array4) : M (list (list Q)) :=
  m ← gets model;
  match m with
  | None => raise (Exn AttributeError "'NoneType' object has no attribute 'predict'")
  | Some f =>
      modify (fun s => set_inferences (inferences s ++ [x]) s);;
      lift (f x)
  end.

(** The [try] block of [predict_cancer]. *)
Definition predict_try (pil : PIL) (current_date image_path : string) : M unit :=
  logging INFO ("Predicting for image: " +:+ image_path);;
  img_pil ← lift (Image_open pil image_path);
  processed_img ← preprocess_image pil img_pil;
  predictions ← model_predict processed_img;
  indices ← lift (mapM_result np_argmax predictions);
  class_index ← lift (getitem indices 0);
  scores ← lift (getitem predictions 0);
  modify (set_confidence_scores (Some scores));;
  update_results class_index scores;;
  update_metrics class_index scores;;
  add_to_history current_date class_index scores;;
  modify (set_prediction_made true);;
  modify (set_status_var "Prediction complete");;
  modify (set_tab_control 0%nat);;
  logging INFO ("Prediction completed: Class " +:+ pretty class_index
                +:+ ", Confidence " +:+ show_scores scores).

Definition predict_cancer (pil : PIL) (current_date : string) : M unit :=
  loaded ← gets model_loaded;
  if negb loaded
  then messagebox showerror "Error" "Model not loaded. Cannot make prediction."
  else
    path ← gets image_path;
    match path with
    | None | Some "" => messagebox showerror "Error" "No image selected."
    | Some image_path =>
        modify (set_progress true);;
        modify (set_status_var "Processing...");;
        try_finally
          (try_except
             (predict_try pil current_date image_path)
             (fun e =>
                messagebox showerror "Error"
                  ("Prediction failed: " +:+ exn_str e);;
                logging ERROR ("Prediction failed: " +:+ exn_str e)))
          (modify (set_progress false))
    end.

(** ** History export (lines 436-458) *)

Definition newline : string := String (ascii_of_nat 10) "".

Definition csv_header : string := "Date,Filename,Result,Confidence" +:+ newline.

Definition csv_line (r : history_row) : string :=
  row_date r +:+ "," +:+ row_filename r +:+ "," +:+ row_result r +:+ ","
  +:+ row_confidence r +:+ newline.

(** [open(path, 'w')] truncates; [f.write] appends. *)
Definition open_write (path : string) : M unit :=
  modify (fun s => set_files (<[path := Text ""]> (files s)) s).

Definition file_write (path text : string) : M unit :=
  modify (fun s =>
    let old := match files s !! path with Some (Text t) => t | _ => "" end in
    set_files (<[path := Text (old +:+ text)]> (files s)) s).

(** The [try] block of [export_history]. *)
Definition export_try (file_path : string) : M unit :=
  open_write file_path;;
  file_write file_path csv_header;;
  rows ← gets history_tree;
  for_each rows (fun values => file_write file_path (csv_line values));;
  messagebox showinfo "Success" ("History exported to " +:+ file_path);;
  logging INFO ("History exported to " +:+ file_path).

(** [file_path] is what the save dialog returned. *)
Definition export_history (file_path : string) : M unit :=
  rows ← gets history_tree;
  match rows with
  | [] => messagebox showinfo "Info" "No history to export."
  | _ =>
      if String.eqb file_path "" then pass
      else
        try_except
          (export_try file_path)
          (fun e =>
             messagebox showerror "Error"
               ("Failed to export history: " +:+ exn_str e);;
             logging ERROR ("History export failed: " +:+ exn_str e))
  end.

(** ** The event loop

    After [__init__] the Tk main loop dispatches user actions to the bound
    methods; each event carries what the outside world answered. *)

Inductive event :=
| EvUpload (pil : PIL) (file_path : string)
| EvPredict (pil : PIL) (current_date : string)
| EvClearHistory
| EvExport (file_path : string).

Definition handle (ev : event) : M unit :=
  match ev with
  | EvUpload pil file_path => upload_image pil file_path
  | EvPredict pil current_date => predict_cancer pil current_date
  | EvClearHistory => clear_history
  | EvExport file_path => export_history file_path
  end.

Definition step (ev : event) (s : app) : app := snd (handle ev s).

Fixpoint run (evs : list event) (s : app) : app :=
  match evs with
  | [] => s
  | ev :: evs' => run evs' (step ev s)
  end.

(** ** A sample environment

    A Pillow that knows three files, resamples by nearest neighbour and
    converts to RGB by replicating the first band; a model that answers
    (0.4, 0.6) for every image. *)

Definition grey_image (w h : nat) (v : Z) : pil_image :=
  PilImage "L" (Z.of_nat w, Z.of_nat h) (repeat (repeat [v] w) h).

Definition nearest (target : Z * Z) (img : pil_image) : pil_image :=
  let '(w, h) := target in
  let '(w0, h0) := size img in
  PilImage (mode img) target
    ((fun y => (fun x =>
        default [] (default [] (pixels img !! Z.to_nat (Z.of_nat y * h0 / h))
                      !! Z.to_nat (Z.of_nat x * w0 / w)))
       <$> seq 0 (Z.to_nat w))
     <$> seq 0 (Z.to_nat h)).

Definition to_rgb (img : pil_image) : pil_image :=
  PilImage "RGB" (size img)
    (map (map (fun p => repeat (default 0 (head p)) 3)) (pixels img)).

Definition sample_pil : PIL := {|
  Image_open path :=
    if String.eqb path "/data/slide.png" then Ok (grey_image 64 50 200)
    else if String.eqb path "/data/thumb.png" then Ok (PilImage "RGB" (40, 60) [])
    else if String.eqb path "/data/strip.png" then Ok (PilImage "RGB" (48, 100000) [])
    else Raise (Exn FileNotFoundError
                  ("[Errno 2] No such file or directory: '" +:+ path +:+ "'"));
  Image_convert m img := Ok (to_rgb img);
  Image_resample _ target img := Ok (nearest target img);
  PhotoImage img := Ok (size img)
|}.

Definition sample_model : keras_model := fun _ => Ok [[2 # 5; 3 # 5]]%Q.

Definition sample_load_model (path : string) : result keras_model :=
  if String.eqb path "/opt/app/cancer_detection_model.h5" then Ok sample_model
  else Raise (Exn FileNotFoundError
                ("[Errno 2] No such file or directory: '" +:+ path +:+ "'")).

(** The application started in [/opt/app], without and with a
    configuration file. *)
Definition sample_start (fs : gmap string file) : result unit * app :=
  init "/opt/app" sample_load_model "" (blank fs).

Definition strict_config : json :=
  JObj (<["model_path" := JStr "cancer_detection_model.h5"]>
       (<["target_size" := JArr [JInt 48; JInt 48]]>
       (<["threshold" := JFloat (7 # 10)]> ∅))).

Definition loose_config : json :=
  JObj (<["model_path" := JStr "cancer_detection_model.h5"]>
       (<["target_size" := JArr [JInt 48; JInt 48]]>
       (<["threshold" := JFloat (3 # 2)]> ∅))).

(** ** Vocabulary of the statements *)


(** The display size CPython computes against the exact one: equal or one
    pixel less on each side, inside the box, in proportion up to a pixel. *)
Definition binary64_close (w h : Z) : bool :=
  let '(fw, fh) := new_size (F:=float) (w, h) (350, 350) in
  let qw := 350 * w / Z.max w h in
  let qh := 350 * h / Z.max w h in
  ((fw =? qw) || (fw =? qw - 1)) && ((fh =? qh) || (fh =? qh - 1))
  && (0 <=? fw) && (fw <=? 350) && (0 <=? fh) && (fh <=? 350)
  && (- h <=? fw * h - fh * w) && (fw * h - fh * w <=? w).

Fixpoint sides (n : nat) : list Z :=
  match n with
  | O => []
  | S k => Z.of_nat n :: sides k
  end.

Definition binary64_close_upto (n : nat) : bool :=
  forallb (fun w => forallb (binary64_close w) (sides n)) (sides n).

(** [keeps f m]: running [m] leaves the observation [f] of the state as it
    was, whether [m] returns or raises. *)
Definition keeps {A B} (f : app -> B) (m : M A) : Prop :=
  forall s, f (snd (m s)) = f s.

(** [no_raise m]: no exception leaves [m]. *)
Definition no_raise {A} (m : M A) : Prop :=
  forall s e, fst (m s) <> Raise e.

(** The two texts of the Results tab, and the configured threshold. *)
Definition displayed_positive (s : app) : Prop :=
  result_label s = ("CANCER DETECTED", "red").

Definition displayed_negative (s : app) : Prop :=
  result_label s = ("NO CANCER DETECTED", "green").

Definition configured_threshold (s : app) : result json :=
  json_getitem (config s) "threshold".

Definition threshold_in_range (s : app) : Prop :=
  exists tj t, configured_threshold s = Ok tj
               /\ number_of_json tj = Some t
               /\ (0 <= number_value t)%Q /\ (number_value t <= 1)%Q.

(** What [upload_image] leaves behind in each of its three outcomes. *)
Definition warned (m : number) (s : app) : app :=
  set_dialogs (dialogs s ++ [Dialog showwarning "Warning"
     ("Image must be at least " +:+ number_str m +:+ "x"
      +:+ number_str m +:+ " pixels.")]) s.

Definition accepted (file_path : string) (s : app) : app :=
  set_log (log s ++ [(INFO, "Image uploaded: " +:+ file_path)])
    (set_image_info_label ("Image: " +:+ basename file_path)
       (set_predict_button normal
          (set_status_var ("Image loaded: " +:+ basename file_path) s))).

Definition rejected (e : exn) (s : app) : app :=
  set_log (log s ++ [(ERROR, "Image upload failed: " +:+ exn_str e)])
    (set_dialogs (dialogs s ++ [Dialog showerror "Error"
                    ("Invalid image file: " +:+ exn_str e)]) s).

(** The test of line 295. *)
Definition too_small (img : pil_image) (m : number) : bool :=
  int_lt (fst (size img)) m || int_lt (snd (size img)) m.


(** The assignments of [__init__] between [load_config] and
    [load_model_file]. *)
Definition attributes_reset (cfg : json) (s : app) : app :=
  set_confidence_scores None
    (set_prediction_made false
       (set_model_loaded false
          (set_model None (set_image_path None (set_config cfg s))))).




(** The states the guards and handlers of the other methods leave. *)
Definition refused (msg : string) (s : app) : app :=
  set_dialogs (dialogs s ++ [Dialog showerror "Error" msg]) s.

Definition busy (s : app) : app :=
  set_status_var "Processing..." (set_progress true s).

Definition prediction_failed (e : exn) (s : app) : app :=
  set_progress false
    (set_log (log s ++ [(ERROR, "Prediction failed: " +:+ exn_str e)])
       (set_dialogs (dialogs s ++ [Dialog showerror "Error"
                       ("Prediction failed: " +:+ exn_str e)]) s)).

Definition model_failed (e : exn) (s : app) : app :=
  set_dialogs (dialogs s ++ [Dialog showerror "Model Error"
                               ("Failed to load model: " +:+ exn_str e)])
    (set_log (log s ++ [(ERROR, "Failed to load model: " +:+ exn_str e)])
       (set_model_loaded false s)).

Definition model_missing (s : app) : app :=
  set_log (log s ++ [(WARNING,
     "Default model not found, prompting user selection")]) s.

(** A failure is logged when the log changed, surfaced when a dialog was
    shown. *)
Definition logged (before after : app) : Prop :=
  log after <> log before.

Definition surfaced (before after : app) : Prop :=
  dialogs after <> dialogs before.

(** A loader that finds no default model and cannot read the file the user
    selects. *)
Definition broken_load_model (path : string) : result keras_model :=
  if String.eqb path "/home/user/broken.h5"
  then Raise (Exn OSError "Unable to open file (file signature not found)")
  else Raise (Exn FileNotFoundError
                ("[Errno 2] No such file or directory: '" +:+ path +:+ "'")).




(** Pillow's contract for an 8-bit RGB image of a given size. *)
Definition band8 (v : Z) : bool := (0 <=? v) && (v <=? 255).

Definition rgb8 (target : Z * Z) (img : pil_image) : bool :=
  String.eqb (mode img) "RGB"
  && (fst (size img) =? fst target) && (snd (size img) =? snd target)
  && (length (pixels img) =? Z.to_nat (snd target))%nat
  && forallb (fun row =>
       (length row =? Z.to_nat (fst target))%nat
       && forallb (fun px => (length px =? 3)%nat && forallb band8 px) row)
       (pixels img).

Definition has_shape (n h w c : nat) (a : array4) : Prop :=
  length a = n
  /\ Forall (fun a3 =>
       length a3 = h
       /\ Forall (fun row =>
            length row = w /\ Forall (fun px => length px = c) row) a3) a.

Definition in_unit_interval (a : array4) : Prop :=
  Forall (Forall (Forall (Forall (fun x => 0 <= x /\ x <= 1)%Q))) a.

(** The sample application after start-up, and a short session. *)
Definition started : app := snd (sample_start ∅).

Definition strict_started : app :=
  snd (sample_start {[ "config.json" := JsonDoc strict_config ]}).

Definition sample_session : list event :=
  [EvUpload sample_pil "/data/slide.png";
   EvPredict sample_pil "2025-01-01 10:00"].

(** ** Vocabulary of the further properties *)


(** The flag and the model object go together. *)
Definition model_consistent (s : app) : Prop :=
  (model_loaded s = true /\ exists m, model s = Some m)
  \/ (model_loaded s = false /\ model s = None).

(** The Metrics tab has its five rows and the last one shows the
    configured threshold. *)
Definition metrics_ready (s : app) : Prop :=
  exists t, configured_threshold s = Ok t
            /\ length (metrics_tree s) = 5%nat
            /\ metrics_tree s !! 4%nat = Some ("Decision Threshold", CellValue t).

(** What a prediction may change only by completing. *)
Definition outcome_fields (s : app) :=
  (history_tree s, prediction_made s, dialogs s, image_path s).

(** The row [add_to_history] inserts for a class index and its score. *)
Definition recorded (d p : string) (class_index : nat) (c : Q) : history_row :=
  HistoryRow d (basename p)
    (if (class_index =? 1)%nat then "Cancer" else "No Cancer")
    (format_percent 2 c).

(** A character test for the directory separator. *)
Fixpoint has_slash (s : string) : bool :=
  match s with
  | EmptyString => false
  | String c s' => Ascii.eqb c "/"%char || has_slash s'
  end.

(** A history row as the application writes them. *)
Definition well_formed_row (r : history_row) : Prop :=
  (row_result r = "Cancer" \/ row_result r = "No Cancer")
  /\ has_slash (row_filename r) = false.


(** The text and colour [update_results] chooses. *)
Definition verdict (class_index : nat) (c : Q) (t : number) : string * string :=
  if (class_index =? 1)%nat
  then if Qlt_le_dec c (number_value t)
       then ("NO CANCER DETECTED", "green") else ("CANCER DETECTED", "red")
  else ("NO CANCER DETECTED", "green").

(** The display size CPython computes is accepted by Pillow and has its
    longer side at 349 or 350 pixels. *)
Definition binary64_displayable (w h : Z) : bool :=
  let '(fw, fh) := new_size (F:=float) (w, h) (350, 350) in
  (1 <=? fw) && (1 <=? fh)
  && ((Z.max fw fh =? 350) || (Z.max fw fh =? 349)).

(** [binary64_displayable] on every size up to [n] x [n]. *)
Definition binary64_displayable_upto (n : nat) : bool :=
  forallb (fun w => forallb (binary64_displayable w) (sides n)) (sides n).

(** A loader that finds no default model but reads the one in the user's
    directory. *)
Definition fallback_load_model (path : string) : result keras_model :=
  if String.eqb path "/home/user/model.h5" then Ok sample_model
  else Raise (Exn FileNotFoundError
                ("[Errno 2] No such file or directory: '" +:+ path +:+ "'")).

(** A configuration file without a threshold. *)
Definition bare_config : json :=
  JObj (<["model_path" := JStr "cancer_detection_model.h5"]>
       (<["target_size" := JArr [JInt 48; JInt 48]]> ∅)).

(** The sample application with the slide uploaded. *)
Definition slide_uploaded : app :=
  step (EvUpload sample_pil "/data/slide.png") started.


(** * Properties *)

(** ** Display size

    The arithmetic of [resize_image_aspect_ratio] in exact rationals, and
    binary64 beside it: the rounding of [350 / width] and of the product
    can cost the display copy one pixel (a 79x79 image is shown at 349x349
    by CPython, and would be 350x350 in exact arithmetic). *)

Example new_size_binary64_agrees :
  new_size (F:=float) (1000, 3) (350, 350)
  = new_size (F:=Q) (1000, 3) (350, 350).
Proof. vm_compute. reflexivity. Qed.

Example new_size_binary64_rounds_down :
  new_size (F:=float) (79, 79) (350, 350) = (349, 349)
  /\ new_size (F:=Q) (79, 79) (350, 350) = (350, 350).
Proof. split; vm_compute; reflexivity. Qed.

Lemma Qtrunc_scaled (n a : Z) (p : positive) :
  0 <= n -> 0 <= a ->
  Qtrunc (int_mul n (true_div a (Zpos p))) = a * n / Zpos p.
Proof.
  intros Hn Ha. unfold Qtrunc, int_mul, true_div, exact_number.
  unfold Qdiv, Qinv, Qmult. simpl.
  rewrite Z.quot_div_nonneg by lia.
  f_equal; lia.
Qed.

Lemma ratio_is_longer_side (w h : positive) :
  fmin (true_div 350 (Zpos w)) (true_div 350 (Zpos h))
  = true_div (F:=Q) 350 (Z.max (Zpos w) (Zpos h)).
Proof.
  unfold fmin, true_div, exact_number.
  destruct (Qlt_le_dec _ _) as [Hlt | Hle].
  - unfold Qlt, Qdiv, Qinv, Qmult in Hlt. simpl in Hlt.
    rewrite Z.max_r by lia. reflexivity.
  - unfold Qle, Qdiv, Qinv, Qmult in Hle. simpl in Hle.
    rewrite Z.max_l by lia. reflexivity.
Qed.

Lemma new_size_exact (w h : Z) :
  0 < w -> 0 < h ->
  new_size (F:=Q) (w, h) (350, 350)
  = (350 * w / Z.max w h, 350 * h / Z.max w h).
Proof.
  intros Hw Hh. destruct w as [|w|w]; try lia. destruct h as [|h|h]; try lia.
  unfold new_size. cbn [fst snd]. rewrite ratio_is_longer_side.
  destruct (Z.max_spec (Zpos w) (Zpos h)) as [[_ ->] | [_ ->]];
    rewrite !Qtrunc_scaled by lia; reflexivity.
Qed.

Lemma in_sides (n : nat) (z : Z) : 1 <= z <= Z.of_nat n -> In z (sides n).
Proof.
  induction n as [|n IH]; intros H; [lia|].
  cbn [sides]. destruct (Z.eq_dec z (Z.of_nat (S n))) as [->|Hne].
  - left. reflexivity.
  - right. apply IH. lia.
Qed.

Lemma binary64_close_sound (n : nat) (w h : Z) :
  binary64_close_upto n = true ->
  1 <= w <= Z.of_nat n -> 1 <= h <= Z.of_nat n ->
  binary64_close w h = true.
Proof.
  unfold binary64_close_upto. intros H Hw Hh.
  rewrite forallb_forall in H. specialize (H w (in_sides n w Hw)).
  rewrite forallb_forall in H. exact (H h (in_sides n h Hh)).
Qed.

Lemma binary64_close_256 : binary64_close_upto 256 = true.
Proof. vm_cast_no_check (eq_refl true). Qed.

(** For every image of at most 256x256 pixels, binary64 rounding costs the
    display copy at most one pixel per side, the copy stays in the box, and
    its proportion is off by at most one pixel. *)
Lemma new_size_binary64_within_one_pixel (w h : Z) :
  1 <= w <= 256 -> 1 <= h <= 256 ->
  let fw := fst (new_size (F:=float) (w, h) (350, 350)) in
  let fh := snd (new_size (F:=float) (w, h) (350, 350)) in
  let qw := fst (new_size (F:=Q) (w, h) (350, 350)) in
  let qh := snd (new_size (F:=Q) (w, h) (350, 350)) in
  (fw = qw \/ fw = qw - 1) /\ (fh = qh \/ fh = qh - 1)
  /\ 0 <= fw <= 350 /\ 0 <= fh <= 350
  /\ - h <= fw * h - fh * w <= w.
Proof.
  intros Hw Hh. cbv zeta.
  rewrite (new_size_exact w h) by lia. cbn [fst snd].
  assert (H : binary64_close w h = true).
  { apply (binary64_close_sound 256 w h binary64_close_256).
    - change (Z.of_nat 256) with 256. exact Hw.
    - change (Z.of_nat 256) with 256. exact Hh. }
  unfold binary64_close in H.
  destruct (new_size (F:=float) (w, h) (350, 350)) as [fw fh]. cbn [fst snd].
  repeat (apply andb_prop in H; destruct H as [H ?]).
  repeat match goal with
         | H : (_ || _) = true |- _ => apply orb_prop in H
         | H : (_ =? _) = true |- _ => apply Z.eqb_eq in H
         | H : (_ <=? _) = true |- _ => apply Z.leb_le in H
         | H : _ \/ _ |- _ =>
             destruct H as [H|H]; [apply Z.eqb_eq in H | apply Z.eqb_eq in H]
         end; lia.
Qed.






(** ** Frame and totality rules

    What a method leaves untouched, and that it returns, follow its syntax. *)

Section Frame.
Context {B : Type} (f : app -> B).

Lemma keeps_ret {A} (a : A) : keeps f (ret a).
Proof. intros s. reflexivity. Qed.

Lemma keeps_raise {A} (e : exn) : keeps f (raise (A:=A) e).
Proof. intros s. reflexivity. Qed.

Lemma keeps_lift {A} (r : result A) : keeps f (lift r).
Proof. intros s. reflexivity. Qed.

Lemma keeps_gets {A} (g : app -> A) : keeps f (gets g).
Proof. intros s. reflexivity. Qed.

Lemma keeps_modify (g : app -> app) :
  (forall s, f (g s) = f s) -> keeps f (modify g).
Proof. intros H s. apply H. Qed.

Lemma keeps_bind {A C} (m : M A) (k : A -> M C) :
  keeps f m -> (forall a, keeps f (k a)) -> keeps f (bind m k).
Proof.
  intros Hm Hk s. unfold bind. specialize (Hm s).
  destruct (m s) as [[a|e] s']; simpl in *.
  - rewrite Hk. exact Hm.
  - exact Hm.
Qed.

Lemma keeps_try_except {A} (body : M A) (h : exn -> M A) :
  keeps f body -> (forall e, keeps f (h e)) -> keeps f (try_except body h).
Proof.
  intros Hm Hh s. unfold try_except. specialize (Hm s).
  destruct (body s) as [[a|e] s']; simpl in *.
  - exact Hm.
  - rewrite Hh. exact Hm.
Qed.

Lemma keeps_try_finally {A} (body : M A) (cleanup : M unit) :
  keeps f body -> keeps f cleanup -> keeps f (try_finally body cleanup).
Proof.
  intros Hm Hc s. unfold try_finally. specialize (Hm s).
  destruct (body s) as [r s']. specialize (Hc s').
  destruct (cleanup s') as [[u|e] s'']; simpl in *; congruence.
Qed.

Lemma keeps_for_each {A} (l : list A) (body : A -> M unit) :
  (forall x, keeps f (body x)) -> keeps f (for_each l body).
Proof.
  intros Hb. induction l as [|x l IH]; simpl.
  - apply keeps_ret.
  - apply keeps_bind; [apply Hb | intros _; exact IH].
Qed.

End Frame.

Ltac frame_step :=
  lazymatch goal with
  | |- keeps _ (bind _ _) => apply keeps_bind; [|intros ?]
  | |- keeps _ (ret _) => apply keeps_ret
  | |- keeps _ pass => apply keeps_ret
  | |- keeps _ (raise _) => apply keeps_raise
  | |- keeps _ (lift _) => apply keeps_lift
  | |- keeps _ (gets _) => apply keeps_gets
  | |- keeps _ (modify _) => apply keeps_modify; intros ?; reflexivity
  | |- keeps _ (try_except _ _) => apply keeps_try_except; [|intros ?]
  | |- keeps _ (try_finally _ _) => apply keeps_try_finally
  | |- keeps _ (for_each _ _) => apply keeps_for_each; intros ?
  | |- keeps _ (match ?x with _ => _ end) => destruct x
  end.

Ltac frame := repeat frame_step.

Lemma no_raise_ret {A} (a : A) : no_raise (ret a).
Proof. intros s e. discriminate. Qed.

Lemma no_raise_gets {A} (g : app -> A) : no_raise (gets g).
Proof. intros s e. discriminate. Qed.

Lemma no_raise_modify (g : app -> app) : no_raise (modify g).
Proof. intros s e. discriminate. Qed.

Lemma no_raise_bind {A C} (m : M A) (k : A -> M C) :
  no_raise m -> (forall a, no_raise (k a)) -> no_raise (bind m k).
Proof.
  intros Hm Hk s e. unfold bind. specialize (Hm s).
  destruct (m s) as [[a|e'] s']; simpl in *.
  - apply Hk.
  - destruct (Hm e' eq_refl).
Qed.

Lemma no_raise_try_except {A} (body : M A) (h : exn -> M A) :
  (forall e, no_raise (h e)) -> no_raise (try_except body h).
Proof.
  intros Hh s e. unfold try_except.
  destruct (body s) as [[a|e'] s']; simpl.
  - discriminate.
  - apply Hh.
Qed.

Lemma no_raise_try_finally {A} (body : M A) (cleanup : M unit) :
  no_raise body -> no_raise cleanup -> no_raise (try_finally body cleanup).
Proof.
  intros Hb Hc s e. unfold try_finally. specialize (Hb s).
  destruct (body s) as [r s']. specialize (Hc s').
  destruct (cleanup s') as [[u|e'] s'']; simpl in *.
  - apply Hb.
  - destruct (Hc e' eq_refl).
Qed.

Lemma no_raise_for_each {A} (l : list A) (body : A -> M unit) :
  (forall x, no_raise (body x)) -> no_raise (for_each l body).
Proof.
  intros Hb. induction l as [|x l IH]; simpl.
  - apply no_raise_ret.
  - apply no_raise_bind; [apply Hb | intros _; exact IH].
Qed.

Ltac total_step :=
  lazymatch goal with
  | |- no_raise (bind _ _) => apply no_raise_bind; [|intros ?]
  | |- no_raise (ret _) => apply no_raise_ret
  | |- no_raise pass => apply no_raise_ret
  | |- no_raise (gets _) => apply no_raise_gets
  | |- no_raise (modify _) => apply no_raise_modify
  | |- no_raise (try_except _ _) => apply no_raise_try_except; intros ?
  | |- no_raise (try_finally _ _) => apply no_raise_try_finally
  | |- no_raise (for_each _ _) => apply no_raise_for_each; intros ?
  | |- no_raise (match ?x with _ => _ end) => destruct x
  end.

Lemma handle_no_raise (ev : event) : no_raise (handle ev).
Proof.
  destruct ev; unfold handle, upload_image, predict_cancer, clear_history,
    export_history, messagebox, logging; repeat total_step.
Qed.

Lemma handle_returns (ev : event) (s : app) : handle ev s = (Ok tt, step ev s).
Proof.
  unfold step. pose proof (handle_no_raise ev s) as H.
  destruct (handle ev s) as [[[]|e] s']; simpl in *.
  - reflexivity.
  - destruct (H e eq_refl).
Qed.

Lemma handle_keeps_config (ev : event) : keeps config (handle ev).
Proof.
  destruct ev; unfold handle, upload_image, upload_try, load_and_display_image,
    predict_cancer, predict_try, preprocess_image, model_predict,
    update_results, update_metrics, add_to_history, set_metric,
    clear_history, export_history, export_try, open_write, file_write,
    messagebox, logging; frame.
Qed.

Lemma run_keeps {B} (f : app -> B) :
  (forall ev, keeps f (handle ev)) ->
  forall evs s, f (run evs s) = f s.
Proof.
  intros H evs. induction evs as [|ev evs IH]; intros s; simpl.
  - reflexivity.
  - rewrite IH. unfold step. apply H.
Qed.

(** ** The decision rule *)




(** C2: with threshold 0.7 and scores (0.4, 0.6) the three labels of one
    prediction disagree: the Results tab reports no cancer, the Class row
    of the Metrics tab and the history entry report cancer. *)
Lemma C2_labels_disagree :
  let s := run sample_session strict_started in
  confidence_scores s = Some [2 # 5; 3 # 5]%Q
  /\ configured_threshold s = Ok (JFloat (7 # 10))
  /\ result_label s = ("NO CANCER DETECTED", "green")
  /\ metrics_tree s !! 0%nat = Some ("Class", CellText "Cancerous")
  /\ history_tree s
     = [HistoryRow "2025-01-01 10:00" "slide.png" "Cancer" "60.00%"].
Proof. vm_compute. repeat split. Qed.

(** ** Configuration and threshold *)

Lemma load_config_cases (s : app) :
  load_config s =
    match files s !! "config.json" with
    | None =>
        (Ok default_config,
         set_files (<["config.json" := JsonDoc default_config]> (files s)) s)
    | Some (JsonDoc v) => (Ok v, s)
    | Some (Text _) => (Raise (Exn JSONDecodeError "Expecting value"), s)
    end.
Proof.
  unfold load_config, try_except, bind, open_read.
  destruct (files s !! "config.json") as [[v|t]|]; reflexivity.
Qed.

(** C5: [load_config] returns the parsed document of an existing
    configuration file and leaves everything as it was; without the file it
    writes the default record and returns it; the default record has exactly
    the keys model_path, target_size and threshold with the documented
    values. *)
Theorem C5_load_config (s : app) :
  load_config s =
    match files s !! "config.json" with
    | None =>
        (Ok default_config,
         set_files (<["config.json" := JsonDoc default_config]> (files s)) s)
    | Some (JsonDoc v) => (Ok v, s)
    | Some (Text _) => (Raise (Exn JSONDecodeError "Expecting value"), s)
    end
  /\ exists m : gmap string json,
       default_config = JObj m
       /\ dom m = {[ "model_path"; "target_size"; "threshold" ]}
       /\ m !! "model_path" = Some (JStr "cancer_detection_model.h5")
       /\ m !! "target_size" = Some (JArr [JInt 48; JInt 48])
       /\ m !! "threshold" = Some (JFloat (1 # 2)).
Proof.
  split.
  - apply load_config_cases.
  - eexists. split; [reflexivity|].
    split; [|repeat split].
    rewrite !dom_insert_L, dom_empty_L. set_solver.
Qed.

Lemma init_steps base lm choice s s0 :
  init base lm choice s = (Ok tt, s0) ->
  exists cfg s1 s2,
    load_config s = (Ok cfg, s1)
    /\ load_model_file base lm choice (attributes_reset cfg s1) = (Ok tt, s2)
    /\ create_ui s2 = (Ok tt, s0).
Proof.
  unfold init. unfold bind at 1.
  destruct (load_config s) as [[cfg|e] s1]; [|discriminate].
  unfold bind at 1 2 3 4 5 6. cbn [modify]. unfold bind at 1.
  fold (attributes_reset cfg s1).
  destruct (load_model_file base lm choice (attributes_reset cfg s1))
    as [[[]|e] s2] eqn:E2; [|discriminate].
  intros H. exists cfg, s1, s2. auto.
Qed.

Lemma load_model_file_keeps_threshold base lm choice :
  keeps configured_threshold (load_model_file base lm choice).
Proof.
  unfold load_model_file. apply keeps_try_except.
  - unfold load_default_model, logging. frame.
  - intros e. destruct (is_FileNotFoundError e).
    + apply keeps_bind; [unfold logging; frame|]. intros _.
      destruct (String.eqb choice ""); [frame|].
      intros s. unfold bind, lift, gets, modify, json_dump, logging.
      destruct (lm choice) as [m|e']; [|reflexivity].
      cbn [snd fst config set_model set_model_loaded].
      destruct (config s) as [| | | | | |cfg] eqn:E; cbn [json_setitem];
        try reflexivity.
      unfold configured_threshold. cbn. rewrite E. cbn.
      rewrite lookup_insert_ne by discriminate. reflexivity.
    + unfold messagebox, logging. frame.
Qed.

Lemma create_ui_keeps_config : keeps config create_ui.
Proof.
  unfold create_ui, create_results_tab, create_metrics_tab, create_history_tab,
    messagebox. frame.
Qed.

Lemma init_threshold base lm choice fs s0 :
  init base lm choice (blank fs) = (Ok tt, s0) ->
  exists cfg s1, load_config (blank fs) = (Ok cfg, s1)
                 /\ configured_threshold s0 = json_getitem cfg "threshold".
Proof.
  intros H. destruct (init_steps _ _ _ _ _ H) as (cfg & s1 & s2 & H1 & H2 & H3).
  exists cfg, s1. split; [exact H1|].
  pose proof (load_model_file_keeps_threshold base lm choice
                (attributes_reset cfg s1)) as K1.
  pose proof (create_ui_keeps_config s2) as K2.
  rewrite H2 in K1. rewrite H3 in K2. cbn [snd] in K1, K2.
  unfold configured_threshold in *. rewrite K2, K1. reflexivity.
Qed.

(** C7, amended: in every state reached after [__init__] the threshold is
    the one [load_config] returned: 0.5, which is in [0, 1], when the file
    was absent, and whatever the file holds, unvalidated, when it was
    present. *)
Theorem C7_threshold_from_config
    (base : string) (lm : string -> result keras_model) (choice : string)
    (fs : gmap string file) (s0 : app) (evs : list event) :
  init base lm choice (blank fs) = (Ok tt, s0) ->
  (fs !! "config.json" = None ->
     configured_threshold (run evs s0) = Ok (JFloat (1 # 2))
     /\ threshold_in_range (run evs s0))
  /\ (forall v, fs !! "config.json" = Some (JsonDoc v) ->
        configured_threshold (run evs s0) = json_getitem v "threshold").
Proof.
  intros Hinit.
  destruct (init_threshold _ _ _ _ _ Hinit) as (cfg & s1 & Hload & Hthr).
  assert (Hrun : configured_threshold (run evs s0) = json_getitem cfg "threshold").
  { unfold configured_threshold.
    rewrite (run_keeps config handle_keeps_config). exact Hthr. }
  pose proof (load_config_cases (blank fs)) as Hspec.
  rewrite Hload in Hspec. cbn [files blank] in Hspec.
  split.
  - intros Hnone. rewrite Hnone in Hspec. injection Hspec as -> _.
    assert (Hd : configured_threshold (run evs s0) = Ok (JFloat (1 # 2)))
      by (rewrite Hrun; reflexivity).
    split; [exact Hd|].
    exists (JFloat (1 # 2)), (NFloat (1 # 2)).
    repeat split; try assumption; unfold Qle; simpl; lia.
  - intros v Hv. rewrite Hv in Hspec. injection Hspec as -> _. exact Hrun.
Qed.

(** C7 on a first start, after one upload and one prediction. *)
Lemma C7_witness :
  configured_threshold (run sample_session started) = Ok (JFloat (1 # 2))
  /\ threshold_in_range (run sample_session started).
Proof.
  destruct (C7_threshold_from_config "/opt/app" sample_load_model "" ∅ started
              sample_session) as [H _]; [vm_compute; reflexivity|].
  apply H. reflexivity.
Defined.

(** C7, as stated, fails: a configuration file with threshold 1.5 is
    loaded as it is. *)
Lemma C7_counterexample :
  let s := snd (sample_start {[ "config.json" := JsonDoc loose_config ]}) in
  fst (sample_start {[ "config.json" := JsonDoc loose_config ]}) = Ok tt
  /\ configured_threshold s = Ok (JFloat (3 # 2))
  /\ ~ threshold_in_range s.
Proof.
  cbv zeta.
  assert (E : configured_threshold
                (snd (sample_start {[ "config.json" := JsonDoc loose_config ]}))
              = Ok (JFloat (3 # 2))) by (vm_compute; reflexivity).
  split; [vm_compute; reflexivity|]. split; [exact E|].
  intros (tj & t & H1 & H2 & H3 & H4). rewrite E in H1.
  injection H1 as <-. injection H2 as <-.
  cbn in H4. unfold Qle in H4. simpl in H4. lia.
Qed.

(** ** Image upload *)

Lemma string_eqb_ne (a b : string) : a <> b -> String.eqb a b = false.
Proof. intros H. apply String.eqb_neq. exact H. Qed.

Lemma upload_image_caught pil path s e s1 :
  path <> "" ->
  upload_try pil path s = (Raise e, s1) ->
  upload_image pil path s = (Ok tt, rejected e s1).
Proof.
  intros Hp H. unfold upload_image. rewrite (string_eqb_ne _ _ Hp).
  unfold try_except. rewrite H. reflexivity.
Qed.

Lemma upload_image_passed pil path s s1 :
  path <> "" ->
  upload_try pil path s = (Ok tt, s1) ->
  upload_image pil path s = (Ok tt, s1).
Proof.
  intros Hp H. unfold upload_image. rewrite (string_eqb_ne _ _ Hp).
  unfold try_except. rewrite H. reflexivity.
Qed.

Lemma upload_try_open_fails pil path s e :
  Image_open pil path = Raise e -> upload_try pil path s = (Raise e, s).
Proof. intros H. unfold upload_try, bind, lift. rewrite H. reflexivity. Qed.

Lemma upload_try_small pil path s img ts m :
  Image_open pil path = Ok img ->
  json_getitem (config s) "target_size" = Ok ts ->
  py_min ts = Ok m ->
  too_small img m = true ->
  upload_try pil path s = (Ok tt, warned m s).
Proof.
  intros H1 H2 H3 H4. unfold upload_try, bind, lift, gets.
  rewrite H1, H2, H3. unfold too_small in H4. rewrite H4. reflexivity.
Qed.

Lemma upload_try_large pil path s img ts m :
  Image_open pil path = Ok img ->
  json_getitem (config s) "target_size" = Ok ts ->
  py_min ts = Ok m ->
  too_small img m = false ->
  upload_try pil path s =
    match load_and_display_image pil path (set_image_path (Some path) s) with
    | (Ok _, s2) => (Ok tt, accepted path s2)
    | (Raise e, s2) => (Raise e, s2)
    end.
Proof.
  intros H1 H2 H3 H4. unfold upload_try, bind, lift, gets.
  rewrite H1, H2, H3. unfold too_small in H4. rewrite H4.
  cbn [modify]. 
  destruct (load_and_display_image pil path (set_image_path (Some path) s))
    as [[u|e] s2]; reflexivity.
Qed.

Lemma display_keeps pil path :
  keeps (fun s => (files s, log s, dialogs s, inferences s, config s,
                   image_path s, model s, model_loaded s, predict_button s,
                   history_tree s))
        (load_and_display_image pil path).
Proof. unfold load_and_display_image. frame. Qed.

Lemma display_shows pil path s s2 :
  load_and_display_image pil path s = (Ok tt, s2) -> image_label s2 <> None.
Proof.
  unfold load_and_display_image, bind, lift, modify.
  destruct (Image_open pil path) as [img|e]; [|discriminate].
  destruct (resize_image_aspect_ratio pil img (350, 350)) as [img'|e];
    [|discriminate].
  destruct (PhotoImage pil img') as [ph|e]; [|discriminate].
  intros H. injection H as <-. discriminate.
Qed.


Lemma too_small_iff (img : pil_image) (m : number) :
  too_small img m = true
  <-> (inject_Z (fst (size img)) < number_value m
       \/ inject_Z (snd (size img)) < number_value m)%Q.
Proof.
  unfold too_small, int_lt.
  destruct (Qlt_le_dec (inject_Z (fst (size img))) (number_value m)) as [H1|H1];
  destruct (Qlt_le_dec (inject_Z (snd (size img))) (number_value m)) as [H2|H2];
    cbn; split; intros H; auto; try discriminate.
  destruct H as [H|H]; exfalso; eapply Qlt_not_le; eauto.
Qed.

(** C10, amended: an image with a side below the minimum of the target
    size only triggers the warning: path, displayed image and button are
    unchanged. An image meeting the minimum has its path stored; the button
    is enabled when the image is then displayed without error, and
    otherwise the error is shown and logged and the button is left as it
    was. *)
Theorem C10_upload_size_gate
    (pil : PIL) (path : string) (s : app) (img : pil_image)
    (ts : json) (m : number) :
  path <> "" ->
  Image_open pil path = Ok img ->
  json_getitem (config s) "target_size" = Ok ts ->
  py_min ts = Ok m ->
  ((inject_Z (fst (size img)) < number_value m
    \/ inject_Z (snd (size img)) < number_value m)%Q ->
   exists s', upload_image pil path s = (Ok tt, s')
     /\ s' = warned m s
     /\ image_path s' = image_path s
     /\ image_label s' = image_label s
     /\ placeholder_label s' = placeholder_label s
     /\ predict_button s' = predict_button s)
  /\ (~ (inject_Z (fst (size img)) < number_value m
         \/ inject_Z (snd (size img)) < number_value m)%Q ->
      exists s', upload_image pil path s = (Ok tt, s')
        /\ image_path s' = Some path
        /\ (forall s2,
              load_and_display_image pil path (set_image_path (Some path) s)
                = (Ok tt, s2) ->
              predict_button s' = normal /\ image_label s' <> None)
        /\ (forall e s2,
              load_and_display_image pil path (set_image_path (Some path) s)
                = (Raise e, s2) ->
              predict_button s' = predict_button s /\ s' = rejected e s2)).
Proof.
  intros Hp Hopen Hts Hmin. split.
  - intros Hsmall. apply too_small_iff in Hsmall.
    exists (warned m s). split; [|repeat split].
    apply upload_image_passed; [exact Hp|].
    eapply upload_try_small; eauto.
  - intros Hbig.
    assert (Hb : too_small img m = false).
    { destruct (too_small img m) eqn:E; [|reflexivity].
      apply too_small_iff in E. contradiction. }
    pose proof (upload_try_large pil path s img ts m Hopen Hts Hmin Hb) as Htry.
    pose proof (display_keeps pil path (set_image_path (Some path) s)) as Hk.
    destruct (load_and_display_image pil path (set_image_path (Some path) s))
      as [[[]|e] s2] eqn:E.
    + exists (accepted path s2). split; [apply upload_image_passed; assumption|].
      cbn in Hk. injection Hk as _ _ _ _ _ Kpath _ _ Kbtn _.
      split; [exact Kpath|]. split.
      * intros s2' H. injection H as <-. split; [reflexivity|].
        cbn. eapply display_shows; eauto.
      * intros e s2' H. discriminate.
    + exists (rejected e s2). split; [apply upload_image_caught; assumption|].
      cbn in Hk. injection Hk as _ _ _ _ _ Kpath _ _ Kbtn _.
      split; [exact Kpath|]. split.
      * intros s2' H. discriminate.
      * intros e' s2' H. injection H as <- <-. split; [exact Kbtn|reflexivity].
Qed.

(** C10 on a 40x60 and on a 64x50 image. *)
Lemma C10_witness :
  (exists s', upload_image sample_pil "/data/thumb.png" started = (Ok tt, s')
              /\ image_path s' = None /\ predict_button s' = disabled)
  /\ (exists s', upload_image sample_pil "/data/slide.png" started = (Ok tt, s')
                 /\ image_path s' = Some "/data/slide.png"
                 /\ predict_button s' = normal).
Proof.
  split.
  - destruct (C10_upload_size_gate sample_pil "/data/thumb.png" started
                (PilImage "RGB" (40, 60) []) (JArr [JInt 48; JInt 48]) (NInt 48))
      as [H _];
      [discriminate | reflexivity | vm_compute; reflexivity | reflexivity |].
    destruct H as (s' & H1 & _ & H3 & _ & _ & H6); [left; reflexivity|].
    exists s'. split; [exact H1|]. rewrite H3, H6. vm_compute. auto.
  - destruct (C10_upload_size_gate sample_pil "/data/slide.png" started
                (grey_image 64 50 200) (JArr [JInt 48; JInt 48]) (NInt 48))
      as [_ H];
      [discriminate | reflexivity | vm_compute; reflexivity | reflexivity |].
    destruct H as (s' & H1 & H2 & H3 & _).
    { intros [H|H]; vm_compute in H; discriminate. }
    exists s'. split; [exact H1|]. split; [exact H2|].
    eapply H3. vm_compute. reflexivity.
Defined.

(** C10, as stated, fails: a 48x100000 image meets the minimum size, its
    path is stored, but its display copy would be 0 pixels wide, Pillow
    refuses, and the button stays disabled. *)
Lemma C10_counterexample :
  let s' := step (EvUpload sample_pil "/data/strip.png") started in
  Image_open sample_pil "/data/strip.png"
    = Ok (PilImage "RGB" (48, 100000) [])
  /\ py_min (JArr [JInt 48; JInt 48]) = Ok (NInt 48)
  /\ json_getitem (config started) "target_size" = Ok (JArr [JInt 48; JInt 48])
  /\ too_small (PilImage "RGB" (48, 100000) []) (NInt 48) = false
  /\ image_path s' = Some "/data/strip.png"
  /\ predict_button s' = disabled.
Proof. vm_compute. repeat split. Qed.

(** ** The prediction button *)


Lemma create_ui_starts s s0 :
  create_ui s = (Ok tt, s0) ->
  predict_button s0 = disabled /\ image_path s0 = image_path s
  /\ history_tree s0 = [].
Proof.
  unfold create_ui, create_results_tab, create_metrics_tab, create_history_tab,
    messagebox, bind, gets, lift, modify.
  cbn. destruct (json_getitem (config s) "threshold"); [|discriminate].
  cbn. destruct (model_loaded s); intros H; injection H as <-; auto.
Qed.







Lemma predict_guard pil d s :
  (model_loaded s = false ->
   predict_cancer pil d s
   = (Ok tt, refused "Model not loaded. Cannot make prediction." s))
  /\ (model_loaded s = true -> image_path s = None \/ image_path s = Some "" ->
      predict_cancer pil d s = (Ok tt, refused "No image selected." s)).
Proof.
  unfold predict_cancer, bind, gets. cbn beta iota. split.
  - intros ->. reflexivity.
  - intros Hm Hp. rewrite Hm. cbn. destruct Hp as [-> | ->]; reflexivity.
Qed.





(** ** Failures *)

Lemma load_model_file_caught base lm choice s e s1 :
  load_default_model base lm s = (Raise e, s1) ->
  is_FileNotFoundError e = false ->
  load_model_file base lm choice s = (Ok tt, model_failed e s1).
Proof.
  intros H He. unfold load_model_file, try_except. rewrite H, He. reflexivity.
Qed.

Lemma load_model_file_missing base lm s e s1 :
  load_default_model base lm s = (Raise e, s1) ->
  is_FileNotFoundError e = true ->
  load_model_file base lm "" s = (Ok tt, model_missing s1).
Proof.
  intros H He. unfold load_model_file, try_except. rewrite H, He. reflexivity.
Qed.

Lemma predict_cancer_caught pil d s p e s1 :
  model_loaded s = true -> image_path s = Some p -> p <> "" ->
  predict_try pil d p (busy s) = (Raise e, s1) ->
  predict_cancer pil d s = (Ok tt, prediction_failed e s1).
Proof.
  intros Hm Hp Hne H. unfold predict_cancer, bind, gets. cbn beta iota.
  rewrite Hm. cbn [negb]. rewrite Hp. destruct p as [|a p]; [congruence|].
  cbn [modify]. unfold try_finally, try_except. fold (busy s).
  rewrite H. reflexivity.
Qed.

(** C6, amended: a missing configuration file is answered by writing the
    defaults, silently; an exception of the first [load_model] other than
    [FileNotFoundError] is caught, logged and shown; a missing default model
    is logged as a warning and the user is asked for a file; an image that
    cannot be opened, and any exception of the [try] block of
    [upload_image] or [predict_cancer], is caught, shown and logged; no
    event handler raises. *)
Theorem C6_failures_handled :
  (forall s, files s !! "config.json" = None ->
     exists s', load_config s = (Ok default_config, s')
       /\ files s' !! "config.json" = Some (JsonDoc default_config)
       /\ log s' = log s /\ dialogs s' = dialogs s)
  /\ (forall base lm choice s e s1,
        load_default_model base lm s = (Raise e, s1) ->
        is_FileNotFoundError e = false ->
        load_model_file base lm choice s = (Ok tt, model_failed e s1))
  /\ (forall base lm s e s1,
        load_default_model base lm s = (Raise e, s1) ->
        is_FileNotFoundError e = true ->
        load_model_file base lm "" s = (Ok tt, model_missing s1))
  /\ (forall pil path s e,
        Image_open pil path = Raise e ->
        upload_try pil path s = (Raise e, s))
  /\ (forall pil path s e s1,
        path <> "" ->
        upload_try pil path s = (Raise e, s1) ->
        upload_image pil path s = (Ok tt, rejected e s1))
  /\ (forall pil d s p e s1,
        model_loaded s = true -> image_path s = Some p -> p <> "" ->
        predict_try pil d p (busy s) = (Raise e, s1) ->
        predict_cancer pil d s = (Ok tt, prediction_failed e s1))
  /\ (forall ev s, fst (handle ev s) = Ok tt).
Proof.
  split.
  { intros s Hs. eexists. rewrite load_config_cases, Hs.
    split; [reflexivity|]. cbn. rewrite lookup_insert_eq. auto. }
  split; [exact load_model_file_caught|].
  split; [exact load_model_file_missing|].
  split; [exact upload_try_open_fails|].
  split; [exact upload_image_caught|].
  split; [exact predict_cancer_caught|].
  intros ev s. rewrite handle_returns. reflexivity.
Qed.

(** C6 on a first start and on a file that is not there. *)
Lemma C6_witness :
  (exists s', load_config (blank ∅) = (Ok default_config, s')
              /\ log s' = [] /\ dialogs s' = [])
  /\ exists e,
       Image_open sample_pil "/data/missing.png" = Raise e
       /\ upload_image sample_pil "/data/missing.png" started
          = (Ok tt, rejected e started).
Proof.
  destruct C6_failures_handled as (H1 & _ & _ & H4 & H5 & _). split.
  - destruct (H1 (blank ∅)) as (s' & E & _ & Hl & Hd); [reflexivity|].
    exists s'. auto.
  - eexists. split; [vm_compute; reflexivity|].
    apply H5; [discriminate|]. apply H4. vm_compute. reflexivity.
Defined.

(** C6, as stated, fails on a missing configuration file: the defaults are
    returned without a log record and without a dialog. *)
Lemma C6_counterexample :
  files (blank ∅) !! "config.json" = None
  /\ fst (load_config (blank ∅)) = Ok default_config
  /\ ~ logged (blank ∅) (snd (load_config (blank ∅)))
  /\ ~ surfaced (blank ∅) (snd (load_config (blank ∅))).
Proof.
  rewrite load_config_cases. cbn [files blank]. rewrite lookup_empty.
  repeat split; intros H; apply H; reflexivity.
Qed.

(** A failure of the second [load_model], on the file the user selected,
    is raised inside the [except FileNotFoundError] clause: the sibling
    [except Exception] clause does not see it and it leaves [__init__]. *)
Example picked_model_failure_escapes :
  fst (init "/opt/app" broken_load_model "/home/user/broken.h5" (blank ∅))
  = Raise (Exn OSError "Unable to open file (file signature not found)").
Proof. vm_compute. reflexivity. Qed.

(** ** History export *)









(** ** Preprocessing *)

Lemma forallb_Forall {A} (f : A -> bool) (l : list A) :
  forallb f l = true -> Forall (fun x => f x = true) l.
Proof.
  induction l as [|x l IH]; cbn; intros H; constructor.
  - apply andb_prop in H. tauto.
  - apply IH. apply andb_prop in H. tauto.
Qed.

Lemma scaled_in_unit (v : Z) :
  band8 v = true -> (0 <= inject_Z v / 255 /\ inject_Z v / 255 <= 1)%Q.
Proof.
  unfold band8. intros H. apply andb_prop in H. destruct H as [H0 H1].
  apply Z.leb_le in H0, H1.
  unfold Qle, Qdiv, Qmult, Qinv, inject_Z. simpl. lia.
Qed.

(** C9: with target size [w, h], when Pillow converts the image to RGB
    (unless it is RGB already) and resizes it to an 8-bit RGB raster of that
    size, [preprocess_image] returns, state untouched, the raster divided
    by 255: shape (1, h, w, 3), every element in [0, 1]; without a loaded
    model it raises [ValueError]. *)
Theorem C9_preprocess_image
    (pil : PIL) (image converted resized : pil_image) (s : app) (w h : Z) :
  json_getitem (config s) "target_size" = Ok (JArr [JInt w; JInt h]) ->
  (if String.eqb (mode image) "RGB" then Ok image
   else Image_convert pil "RGB" image) = Ok converted ->
  Image_resize pil (w, h) DEFAULT converted = Ok resized ->
  rgb8 (w, h) resized = true ->
  (model_loaded s = true ->
   exists a : array4,
     preprocess_image pil image s = (Ok a, s)
     /\ a = array_div (expand_dims (img_to_array resized)) 255
     /\ mode resized = "RGB"
     /\ has_shape 1 (Z.to_nat h) (Z.to_nat w) 3 a
     /\ in_unit_interval a)
  /\ (model_loaded s = false ->
      preprocess_image pil image s
      = (Raise (Exn ValueError "Model not loaded"), s)).
Proof.
  intros Hts Hconv Hres Hrgb. split.
  - intros Hm. eexists. split.
    { unfold preprocess_image, bind, gets, lift, ret. cbn beta iota.
      rewrite Hm. cbn [negb]. rewrite Hts. cbn [py_tuple]. rewrite Hconv.
      cbn [size_of_tuple json_int]. rewrite Hres. reflexivity. }
    split; [reflexivity|].
    unfold rgb8 in Hrgb. cbn [fst snd] in Hrgb.
    repeat (apply andb_prop in Hrgb; destruct Hrgb as [Hrgb ?]).
    match goal with H : forallb _ _ = true |- _ =>
      apply forallb_Forall in H; rename H into Hpix end.
    match goal with H : (length _ =? _)%nat = true |- _ =>
      apply Nat.eqb_eq in H; rename H into Hlen end.
    split; [apply String.eqb_eq; assumption|].
    unfold has_shape, in_unit_interval, array_div, expand_dims, img_to_array.
    split; [split|].
    + reflexivity.
    + constructor; [|constructor]. rewrite !length_map. split; [exact Hlen|].
      apply Forall_map, Forall_map. eapply Forall_impl; [exact Hpix|].
      intros row Hrow. cbn beta in *. apply andb_prop in Hrow.
      destruct Hrow as [Hrl Hrow]. apply Nat.eqb_eq in Hrl.
      rewrite !length_map. split; [exact Hrl|].
      apply Forall_map, Forall_map. apply forallb_Forall in Hrow.
      eapply Forall_impl; [exact Hrow|].
      intros px Hpx. cbn beta in *. apply andb_prop in Hpx.
      destruct Hpx as [Hpl _]. apply Nat.eqb_eq in Hpl.
      rewrite !length_map. exact Hpl.
    + constructor; [|constructor].
      apply Forall_map, Forall_map. eapply Forall_impl; [exact Hpix|].
      intros row Hrow. cbn beta in *. apply andb_prop in Hrow.
      destruct Hrow as [_ Hrow].
      apply Forall_map, Forall_map. apply forallb_Forall in Hrow.
      eapply Forall_impl; [exact Hrow|].
      intros px Hpx. cbn beta in *. apply andb_prop in Hpx.
      destruct Hpx as [_ Hpx].
      apply Forall_map, Forall_map. apply forallb_Forall in Hpx.
      eapply Forall_impl; [exact Hpx|].
      intros v Hv. apply scaled_in_unit. exact Hv.
  - intros Hm. unfold preprocess_image, bind, gets. cbn beta iota.
    rewrite Hm. reflexivity.
Qed.

(** C9 on a 64x50 greyscale image and the default 48x48 target. *)
Lemma C9_witness :
  exists a : array4,
    preprocess_image sample_pil (grey_image 64 50 200) started = (Ok a, started)
    /\ has_shape 1 48 48 3 a /\ in_unit_interval a.
Proof.
  destruct (C9_preprocess_image sample_pil (grey_image 64 50 200)
              (to_rgb (grey_image 64 50 200))
              (nearest (48, 48) (to_rgb (grey_image 64 50 200)))
              started 48 48) as [H _];
    [vm_compute; reflexivity | reflexivity | reflexivity
     | vm_compute; reflexivity |].
  destruct H as (a & H1 & _ & _ & H3 & H4); [vm_compute; reflexivity|].
  exists a. auto.
Defined.

(** * Further properties *)

(** ** Tactics *)

Ltac exec_cases :=
  cbv beta iota;
  repeat match goal with
         | |- context [match ?x with _ => _ end] =>
             lazymatch x with
             | context [match _ with _ => _ end] => fail
             | _ => destruct x eqn:?; cbv beta iota
             end
         end.

Ltac frame_with tac :=
  repeat first [ frame_step | apply keeps_modify; intros ?; tac ].

(** ** Configuration file *)

(** X1: once [load_config] has returned a configuration, calling it again
    returns the same configuration and changes nothing: the file on disk now
    holds exactly what was returned. *)
Lemma load_config_idempotent (s s1 : app) (v : json) :
  load_config s = (Ok v, s1) ->
  load_config s1 = (Ok v, s1)
  /\ files s1 !! "config.json" = Some (JsonDoc v).
Proof.
  rewrite (load_config_cases s).
  destruct (files s !! "config.json") as [[v'|t]|] eqn:E; intros H.
  - injection H as <- <-. rewrite load_config_cases, E. auto.
  - discriminate.
  - injection H as <- <-. rewrite load_config_cases.
    cbn [files set_files]. rewrite lookup_insert_eq. auto.
Qed.

(** X1, on the sample application. *)
Lemma load_config_idempotent_witness :
  load_config (snd (load_config (blank ∅)))
  = (Ok default_config, snd (load_config (blank ∅))).
Proof.
  apply (load_config_idempotent (blank ∅)). vm_compute. reflexivity.
Defined.



(** ** Start-up *)

Lemma load_model_file_outcome base lm choice s r s2 :
  model s = None -> model_loaded s = false ->
  load_model_file base lm choice s = (r, s2) ->
  (r = Ok tt -> model_consistent s2)
  /\ (model_loaded s2 = true -> dialogs s2 = dialogs s).
Proof.
  intros Hm Hl. unfold load_model_file, try_except, load_default_model,
    logging, messagebox, json_dump, pass, bind, gets, lift, modify, ret.
  cbv beta iota.
  repeat match goal with
         | |- context [match ?x with _ => _ end] =>
             lazymatch x with
             | context [match _ with _ => _ end] => fail
             | _ => destruct x; cbv beta iota
             end
         end;
    intros H; injection H as <- <-; cbn; rewrite ?Hl, ?Hm;
    (split;
     [ first [ intros ?; congruence
             | intros _; left; split; [reflexivity | eauto]
             | intros _; right; split; cbn; first [assumption | reflexivity] ]
     | first [ intros ?; congruence | reflexivity ] ]).
Qed.

Lemma create_ui_spec (s s0 : app) :
  create_ui s = (Ok tt, s0) ->
  exists t,
    json_getitem (config s) "threshold" = Ok t
    /\ metrics_tree s0 =
         [("Class", CellText "--");
          ("Confidence Score", CellText "--");
          ("Non-Cancerous Probability", CellText "--");
          ("Cancerous Probability", CellText "--");
          ("Decision Threshold", CellValue t)]
    /\ result_label s0 = ("No prediction yet", "")
    /\ confidence_label s0 = "Confidence: --"
    /\ image_info_label s0 = "Image: None"
    /\ status_var s0 = "Please upload an image to begin"
    /\ ax1 s0 = []
    /\ placeholder_label s0 = true
    /\ (config s0, model s0, model_loaded s0, image_path s0,
        confidence_scores s0, prediction_made s0, files s0, log s0)
       = (config s, model s, model_loaded s, image_path s,
          confidence_scores s, prediction_made s, files s, log s)
    /\ (model_loaded s = true -> dialogs s0 = dialogs s)
    /\ (model_loaded s = false ->
        dialogs s0 = (dialogs s ++ [Dialog showwarning "Model Not Found"
           "Please ensure a valid model file is available."])%list).
Proof.
  unfold create_ui, create_results_tab, create_metrics_tab, create_history_tab,
    messagebox, pass, bind, gets, lift, modify, ret.
  cbn. destruct (json_getitem (config s) "threshold") as [t|e]; [|discriminate].
  cbn. destruct (model_loaded s) eqn:Hm; intros H; injection H as <-;
    exists t; cbn; rewrite ?Hm; repeat split; congruence.
Qed.

Lemma load_config_keeps_dialogs : keeps dialogs load_config.
Proof.
  intros s. rewrite load_config_cases.
  destruct (files s !! "config.json") as [[v|t]|]; reflexivity.
Qed.

Lemma init_postcondition
    (base : string) (lm : string -> result keras_model) (choice : string)
    (fs : gmap string file) (s0 : app) :
  init base lm choice (blank fs) = (Ok tt, s0) ->
  exists t,
    configured_threshold s0 = Ok t
    /\ metrics_tree s0 =
         [("Class", CellText "--");
          ("Confidence Score", CellText "--");
          ("Non-Cancerous Probability", CellText "--");
          ("Cancerous Probability", CellText "--");
          ("Decision Threshold", CellValue t)]
    /\ history_tree s0 = [] /\ image_path s0 = None
    /\ confidence_scores s0 = None /\ prediction_made s0 = false
    /\ result_label s0 = ("No prediction yet", "")
    /\ status_var s0 = "Please upload an image to begin"
    /\ model_consistent s0
    /\ (model_loaded s0 = true -> dialogs s0 = [])
    /\ (model_loaded s0 = false ->
        exists shown,
          dialogs s0 = (shown ++ [Dialog showwarning "Model Not Found"
             "Please ensure a valid model file is available."])%list).
Proof.
  intros H. destruct (init_steps _ _ _ _ _ H) as (cfg & s1 & s2 & H1 & H2 & H3).
  destruct (create_ui_spec _ _ H3)
    as (t & Ht & Hmt & Hrl & _ & _ & Hst & _ & _ & Hk & Hd1 & Hd0).
  destruct (create_ui_starts _ _ H3) as (_ & _ & Hh).
  injection Hk as Kc Km Kl Kp Ks Kpm _ _.
  pose proof (load_config_keeps_dialogs (blank fs)) as Kd.
  rewrite H1 in Kd. cbn in Kd.
  destruct (load_model_file_outcome base lm choice (attributes_reset cfg s1)
              (Ok tt) s2 eq_refl eq_refl H2) as [Hc Hdl].
  specialize (Hc eq_refl). cbn in Hdl. rewrite Kd in Hdl.
  assert (Kf : keeps (fun s => (image_path s, confidence_scores s,
                                prediction_made s))
                 (load_model_file base lm choice)).
  { unfold load_model_file, load_default_model, json_dump, messagebox, logging.
    frame. }
  specialize (Kf (attributes_reset cfg s1)). rewrite H2 in Kf. cbn in Kf.
  injection Kf as Kf1 Kf2 Kf3.
  exists t. unfold configured_threshold. rewrite Kc.
  split; [exact Ht|]. split; [exact Hmt|]. split; [exact Hh|].
  split; [congruence|]. split; [congruence|]. split; [congruence|].
  split; [exact Hrl|]. split; [exact Hst|].
  split.
  { unfold model_consistent in *. rewrite Km, Kl. exact Hc. }
  split.
  - intros Hl. rewrite Kl in Hl. rewrite (Hd1 Hl). apply Hdl. exact Hl.
  - intros Hl. rewrite Kl in Hl. eexists. apply Hd0. exact Hl.
Qed.

(** X3: when [__init__] completes, the configuration has a threshold and the
    Metrics tab shows it in its fifth row under four dashes; there is no
    history, no selected image and no prediction; the loaded flag and the
    model object agree; with a model no dialog was shown, without one the
    last dialog is the Model Not Found warning. *)
Theorem startup_state
    (base : string) (lm : string -> result keras_model) (choice : string)
    (fs : gmap string file) (s0 : app) :
  init base lm choice (blank fs) = (Ok tt, s0) ->
  exists t,
    configured_threshold s0 = Ok t
    /\ metrics_tree s0 =
         [("Class", CellText "--");
          ("Confidence Score", CellText "--");
          ("Non-Cancerous Probability", CellText "--");
          ("Cancerous Probability", CellText "--");
          ("Decision Threshold", CellValue t)]
    /\ history_tree s0 = [] /\ image_path s0 = None
    /\ confidence_scores s0 = None /\ prediction_made s0 = false
    /\ result_label s0 = ("No prediction yet", "")
    /\ status_var s0 = "Please upload an image to begin"
    /\ model_consistent s0
    /\ (model_loaded s0 = true -> dialogs s0 = [])
    /\ (model_loaded s0 = false ->
        exists shown,
          dialogs s0 = (shown ++ [Dialog showwarning "Model Not Found"
             "Please ensure a valid model file is available."])%list).
Proof. exact (init_postcondition base lm choice fs s0). Qed.

(** X3, on the sample application. *)
Lemma startup_state_witness :
  configured_threshold started = Ok (JFloat (1 # 2))
  /\ history_tree started = [] /\ dialogs started = [].
Proof.
  destruct (startup_state "/opt/app" sample_load_model "" ∅ started)
    as (t & Ht & _ & Hh & _ & _ & _ & _ & _ & _ & Hd & _);
    [vm_compute; reflexivity|].
  split; [vm_compute; reflexivity|]. split; [exact Hh|].
  apply Hd. vm_compute. reflexivity.
Defined.

(** X4: a configuration file whose document has no readable threshold
    (missing key, or not an object) never gets through [__init__]: the
    Metrics tab formats it while the window is built. *)
Theorem startup_needs_threshold
    (base : string) (lm : string -> result keras_model) (choice : string)
    (fs : gmap string file) (v : json) (e : exn) :
  fs !! "config.json" = Some (JsonDoc v) ->
  json_getitem v "threshold" = Raise e ->
  fst (init base lm choice (blank fs)) <> Ok tt.
Proof.
  intros Hf Hv Hok.
  destruct (init base lm choice (blank fs)) as [r s0] eqn:E. cbn in Hok. subst r.
  destruct (init_postcondition _ _ _ _ _ E) as (t & Ht & _).
  destruct (init_threshold _ _ _ _ _ E) as (cfg & s1 & Hl & Hc).
  rewrite load_config_cases in Hl. cbn [files blank] in Hl. rewrite Hf in Hl.
  injection Hl as <- _. congruence.
Qed.

(** X4, on the sample application. *)
Lemma startup_needs_threshold_witness :
  json_getitem bare_config "threshold" = Raise (Exn KeyError "'threshold'")
  /\ fst (init "/opt/app" sample_load_model ""
            (blank {[ "config.json" := JsonDoc bare_config ]})) <> Ok tt.
Proof.
  split; [vm_compute; reflexivity|].
  apply (startup_needs_threshold "/opt/app" sample_load_model ""
           {[ "config.json" := JsonDoc bare_config ]} bare_config
           (Exn KeyError "'threshold'")); vm_compute; reflexivity.
Defined.

(** ** Model selection *)

(** X5: when the default model file is missing and the user selects one that
    loads, the model is installed, the selected path replaces [model_path]
    in the configuration, the file on disk is rewritten with it (loading the
    configuration gives it back), and with an absolute selected path the
    next [load_model_file] on that configuration loads the same model
    without asking. *)
Theorem selected_model_is_persisted
    (base : string) (lm : string -> result keras_model) (choice : string)
    (s s1 : app) (e : exn) (m : keras_model) (cfg : gmap string json) :
  load_default_model base lm s = (Raise e, s1) ->
  is_FileNotFoundError e = true ->
  choice <> "" ->
  lm choice = Ok m ->
  config s1 = JObj cfg ->
  exists s',
    load_model_file base lm choice s = (Ok tt, s')
    /\ model s' = Some m /\ model_loaded s' = true
    /\ config s' = JObj (<["model_path" := JStr choice]> cfg)
    /\ load_config s' = (Ok (config s'), s')
    /\ dialogs s' = dialogs s1
    /\ forall rest s'',
         choice = String "/"%char rest ->
         config s'' = config s' ->
         exists s3,
           load_model_file base lm "" s'' = (Ok tt, s3)
           /\ model s3 = Some m /\ model_loaded s3 = true
           /\ files s3 = files s'' /\ config s3 = config s''.
Proof.
  intros Hd He Hc Hlm Hcfg.
  eexists. split.
  { unfold load_model_file, try_except. rewrite Hd, He.
    rewrite (string_eqb_ne _ _ Hc).
    unfold logging, json_dump, bind, lift, gets, modify. cbn beta iota.
    rewrite Hlm. cbn. rewrite Hcfg. cbn. reflexivity. }
  cbn. split; [reflexivity|]. split; [reflexivity|]. split; [reflexivity|].
  split.
  { rewrite load_config_cases. cbn. rewrite lookup_insert_eq. reflexivity. }
  split; [reflexivity|].
  intros rest s'' Hrest Hs''. eexists. split.
  { unfold load_model_file, try_except, load_default_model, bind, gets, lift,
      modify, logging. cbn beta iota. rewrite Hs''. cbn.
    rewrite lookup_insert_eq. cbn.
    assert (Hpath : resource_path base choice = choice).
    { rewrite Hrest. unfold resource_path, path_join.
      rewrite Ascii.eqb_refl. reflexivity. }
    rewrite Hpath, Hlm. reflexivity. }
  cbn. auto.
Qed.

(** X5, on the sample application. *)
Lemma selected_model_is_persisted_witness :
  exists s',
    load_model_file "/opt/app" fallback_load_model "/home/user/model.h5"
      (attributes_reset default_config (blank ∅)) = (Ok tt, s')
    /\ json_getitem (config s') "model_path" = Ok (JStr "/home/user/model.h5")
    /\ load_config s' = (Ok (config s'), s').
Proof.
  destruct (selected_model_is_persisted "/opt/app" fallback_load_model
              "/home/user/model.h5"
              (attributes_reset default_config (blank ∅))
              (attributes_reset default_config (blank ∅))
              (Exn FileNotFoundError
                 ("[Errno 2] No such file or directory: '"
                  +:+ "/opt/app/cancer_detection_model.h5" +:+ "'"))
              sample_model
              (<["model_path" := JStr "cancer_detection_model.h5"]>
               (<["target_size" := JArr [JInt 48; JInt 48]]>
               (<["threshold" := JFloat (1 # 2)]> ∅))))
    as (s' & H1 & _ & _ & H4 & H5 & _);
    try (vm_compute; reflexivity); try discriminate.
  exists s'. split; [exact H1|]. split; [|exact H5].
  rewrite H4. vm_compute. reflexivity.
Defined.

(** X6: when the default model file is missing and the file the user selects
    does not load, the exception leaves [load_model_file]: only the warning
    has been logged, no dialog is shown and the loaded flag is untouched. *)
Theorem selected_model_failure_escapes
    (base : string) (lm : string -> result keras_model) (choice : string)
    (s s1 : app) (e e' : exn) :
  load_default_model base lm s = (Raise e, s1) ->
  is_FileNotFoundError e = true ->
  choice <> "" ->
  lm choice = Raise e' ->
  load_model_file base lm choice s = (Raise e', model_missing s1)
  /\ dialogs (model_missing s1) = dialogs s1
  /\ model_loaded (model_missing s1) = model_loaded s1.
Proof.
  intros Hd He Hc Hlm. split; [|split; reflexivity].
  unfold load_model_file, try_except. rewrite Hd, He.
  rewrite (string_eqb_ne _ _ Hc).
  unfold logging, bind, lift, modify. cbn beta iota. rewrite Hlm. reflexivity.
Qed.

(** X6, on the sample application. *)
Lemma selected_model_failure_escapes_witness :
  exists s',
    load_model_file "/opt/app" broken_load_model "/home/user/broken.h5"
      (attributes_reset default_config (blank ∅))
    = (Raise (Exn OSError "Unable to open file (file signature not found)"), s')
    /\ dialogs s' = [].
Proof.
  destruct (selected_model_failure_escapes "/opt/app" broken_load_model
              "/home/user/broken.h5"
              (attributes_reset default_config (blank ∅))
              (attributes_reset default_config (blank ∅))
              (Exn FileNotFoundError
                 ("[Errno 2] No such file or directory: '"
                  +:+ "/opt/app/cancer_detection_model.h5" +:+ "'"))
              (Exn OSError "Unable to open file (file signature not found)"))
    as (H1 & H2 & _);
    try (vm_compute; reflexivity); try discriminate.
  eexists. split; [exact H1|]. rewrite H2. reflexivity.
Defined.

(** ** What the events keep *)

Lemma handle_keeps_shape (ev : event) :
  keeps (fun s => (config s, length (metrics_tree s), metrics_tree s !! 4%nat,
                   model s, model_loaded s)) (handle ev).
Proof.
  destruct ev; unfold handle, upload_image, upload_try, load_and_display_image,
    predict_cancer, predict_try, preprocess_image, model_predict,
    update_results, update_metrics, add_to_history, set_metric,
    clear_history, export_history, export_try, open_write, file_write,
    messagebox, logging;
    frame_with ltac:(cbn; rewrite length_insert;
                     rewrite list_lookup_insert_ne by lia; reflexivity).
Qed.

(** X7: in every state the running application reaches, the configuration
    has a threshold, the Metrics tab has five rows of which the fifth shows
    that threshold, and the loaded flag agrees with the model object. *)
Theorem running_invariants
    (base : string) (lm : string -> result keras_model) (choice : string)
    (fs : gmap string file) (s0 : app) (evs : list event) :
  init base lm choice (blank fs) = (Ok tt, s0) ->
  metrics_ready (run evs s0) /\ model_consistent (run evs s0).
Proof.
  intros H. destruct (init_postcondition _ _ _ _ _ H)
    as (t & Ht & Hmt & _ & _ & _ & _ & _ & _ & Hc & _).
  pose proof (run_keeps _ handle_keeps_shape evs s0) as K.
  injection K as K1 K2 K3 K4 K5. split.
  - exists t. unfold configured_threshold in *. rewrite K1, K2, K3, Hmt.
    auto.
  - unfold model_consistent in *. rewrite K4, K5. exact Hc.
Qed.

(** X7, on the sample application. *)
Lemma running_invariants_witness :
  metrics_ready (run sample_session started)
  /\ model_consistent (run sample_session started).
Proof.
  apply (running_invariants "/opt/app" sample_load_model "" ∅ started).
  vm_compute. reflexivity.
Defined.

(** X8: no sequence of user events changes the configuration, the model or
    the loaded flag. *)
Theorem events_keep_settings (evs : list event) (s : app) :
  config (run evs s) = config s
  /\ model (run evs s) = model s
  /\ model_loaded (run evs s) = model_loaded s.
Proof.
  pose proof (run_keeps _ handle_keeps_shape evs s) as K.
  injection K as K1 _ _ K4 K5. auto.
Qed.

(** X9: [upload_image], whatever its outcome, leaves the Results tab, the
    Metrics tab, the stored scores and the history as they were: the verdict
    of the previous image stays on screen. *)
Theorem upload_keeps_previous_result (pil : PIL) (path : string) (s : app) :
  let s' := snd (upload_image pil path s) in
  result_label s' = result_label s
  /\ confidence_label s' = confidence_label s
  /\ confidence_bar s' = confidence_bar s
  /\ metrics_tree s' = metrics_tree s
  /\ ax1 s' = ax1 s
  /\ confidence_scores s' = confidence_scores s
  /\ prediction_made s' = prediction_made s
  /\ history_tree s' = history_tree s.
Proof.
  cbv zeta.
  assert (K : keeps (fun s => (result_label s, confidence_label s,
                               confidence_bar s, metrics_tree s, ax1 s,
                               confidence_scores s, prediction_made s,
                               history_tree s))
                (upload_image pil path))
    by (unfold upload_image, upload_try, load_and_display_image, messagebox,
          logging; frame).
  specialize (K s). injection K as K1 K2 K3 K4 K5 K6 K7 K8. auto 10.
Qed.

(** ** Display *)

Lemma display_failure_keeps_picture pil path s e s2 :
  load_and_display_image pil path s = (Raise e, s2) ->
  image_label s2 = image_label s /\ placeholder_label s2 = false
  /\ status_var s2 = status_var s /\ image_info_label s2 = image_info_label s.
Proof.
  unfold load_and_display_image, bind, lift, modify. exec_cases;
    intros H; try discriminate; injection H as _ <-; cbn; auto.
Qed.

(** X10: when an image passes the size test but cannot be displayed, its
    path is selected all the same, the picture shown before stays, the
    placeholder is hidden, and button, status line and image caption are
    unchanged. *)
Theorem failed_display_keeps_old_picture
    (pil : PIL) (path : string) (s s2 : app) (img : pil_image)
    (ts : json) (m : number) (e : exn) :
  path <> "" ->
  Image_open pil path = Ok img ->
  json_getitem (config s) "target_size" = Ok ts ->
  py_min ts = Ok m ->
  too_small img m = false ->
  load_and_display_image pil path (set_image_path (Some path) s)
    = (Raise e, s2) ->
  exists s',
    upload_image pil path s = (Ok tt, s')
    /\ image_path s' = Some path
    /\ image_label s' = image_label s
    /\ placeholder_label s' = false
    /\ predict_button s' = predict_button s
    /\ status_var s' = status_var s
    /\ image_info_label s' = image_info_label s.
Proof.
  intros Hp Hopen Hts Hmin Hbig Hd.
  pose proof (upload_try_large pil path s img ts m Hopen Hts Hmin Hbig) as Htry.
  rewrite Hd in Htry.
  exists (rejected e s2).
  split; [apply upload_image_caught; assumption|].
  destruct (display_failure_keeps_picture _ _ _ _ _ Hd) as (H1 & H2 & H3 & H4).
  pose proof (display_keeps pil path (set_image_path (Some path) s)) as Hk.
  rewrite Hd in Hk. cbn in Hk. injection Hk as _ _ _ _ _ Kpath _ _ Kbtn _.
  cbn. repeat split; assumption.
Qed.

(** X10, on the sample application. *)
Lemma failed_display_keeps_old_picture_witness :
  exists s',
    upload_image sample_pil "/data/strip.png" slide_uploaded = (Ok tt, s')
    /\ image_path s' = Some "/data/strip.png"
    /\ image_label s' = Some (350, 273)
    /\ predict_button s' = normal.
Proof.
  destruct (failed_display_keeps_old_picture sample_pil "/data/strip.png"
              slide_uploaded
              (snd (load_and_display_image sample_pil "/data/strip.png"
                      (set_image_path (Some "/data/strip.png") slide_uploaded)))
              (PilImage "RGB" (48, 100000) []) (JArr [JInt 48; JInt 48])
              (NInt 48) (Exn ValueError "height and width must be > 0"))
    as (s' & H1 & H2 & H3 & _ & H5 & _);
    try (vm_compute; reflexivity); try discriminate.
  exists s'. split; [exact H1|]. split; [exact H2|]. split.
  - rewrite H3. vm_compute. reflexivity.
  - rewrite H5. vm_compute. reflexivity.
Defined.

Lemma binary64_displayable_sound (n : nat) (w h : Z) :
  binary64_displayable_upto n = true ->
  1 <= w <= Z.of_nat n -> 1 <= h <= Z.of_nat n ->
  binary64_displayable w h = true.
Proof.
  unfold binary64_displayable_upto. intros H Hw Hh.
  rewrite forallb_forall in H. specialize (H w (in_sides n w Hw)).
  rewrite forallb_forall in H. exact (H h (in_sides n h Hh)).
Qed.

Lemma binary64_displayable_256 : binary64_displayable_upto 256 = true.
Proof. vm_cast_no_check (eq_refl true). Qed.

(** X11: in binary64 arithmetic, for every image of at most 256x256 pixels the
    display copy is requested with both sides at least 1 and its longer side
    at 349 or 350 pixels: small images are enlarged and the resize is
    passed on to Pillow's resampling. *)
Theorem small_images_are_displayable (pil : PIL) (img : pil_image) :
  1 <= fst (size img) <= 256 -> 1 <= snd (size img) <= 256 ->
  let target := new_size (F:=float) (size img) (350, 350) in
  resize_image_aspect_ratio (F:=float) pil img (350, 350)
    = Image_resample pil LANCZOS target img
  /\ 1 <= fst target /\ 1 <= snd target
  /\ (Z.max (fst target) (snd target) = 350
      \/ Z.max (fst target) (snd target) = 349).
Proof.
  destruct img as [m [w h] px]. cbn [size fst snd]. intros Hw Hh. cbv zeta.
  assert (H : binary64_displayable w h = true).
  { apply (binary64_displayable_sound 256 w h binary64_displayable_256).
    - change (Z.of_nat 256) with 256. exact Hw.
    - change (Z.of_nat 256) with 256. exact Hh. }
  unfold binary64_displayable in H.
  unfold resize_image_aspect_ratio, Image_resize. cbn [size].
  destruct (new_size (F:=float) (w, h) (350, 350)) as [fw fh]. cbn [fst snd].
  repeat (apply andb_prop in H; destruct H as [H ?]).
  apply Z.leb_le in H. 
  match goal with H1 : (1 <=? fh) = true |- _ => apply Z.leb_le in H1 end.
  match goal with H1 : (_ || _) = true |- _ =>
    apply orb_prop in H1; destruct H1 as [H1|H1]; apply Z.eqb_eq in H1 end.
  all: destruct (Z.eqb_spec w 0); [lia|]; destruct (Z.eqb_spec h 0); [lia|];
    destruct (Z.ltb_spec fw 1); [lia|]; destruct (Z.ltb_spec fh 1); [lia|];
    cbn [orb]; auto.
Qed.

(** X11, on the sample application. *)
Lemma small_images_are_displayable_witness :
  resize_image_aspect_ratio (F:=float) sample_pil (grey_image 50 50 200)
    (350, 350)
  = Image_resample sample_pil LANCZOS (350, 350) (grey_image 50 50 200).
Proof.
  destruct (small_images_are_displayable sample_pil (grey_image 50 50 200))
    as (H & _); [cbn; lia | cbn; lia |].
  rewrite H. vm_compute. reflexivity.
Defined.

(** ** Outcome of a prediction *)

Lemma preprocess_keeps_outcome pil i : keeps outcome_fields (preprocess_image pil i).
Proof. unfold preprocess_image. frame. Qed.

Lemma model_predict_keeps_outcome x : keeps outcome_fields (model_predict x).
Proof. unfold model_predict. frame. Qed.

Lemma update_results_keeps_outcome ci sc :
  keeps (fun s => (outcome_fields s, confidence_scores s)) (update_results ci sc).
Proof. unfold update_results. frame. Qed.

Lemma update_metrics_keeps_outcome ci sc :
  keeps (fun s => (outcome_fields s, confidence_scores s)) (update_metrics ci sc).
Proof. unfold update_metrics, set_metric. frame. Qed.

Ltac keeps_fact lem H :=
  let K := fresh "K" in
  pose proof lem as K; rewrite H in K; cbn in K; clear H.

Ltac outcome_facts :=
  repeat match goal with
         | H : preprocess_image ?pil ?i ?s1 = _ |- _ =>
             keeps_fact (preprocess_keeps_outcome pil i s1) H
         | H : model_predict ?x ?s1 = _ |- _ =>
             keeps_fact (model_predict_keeps_outcome x s1) H
         | H : update_results ?c ?sc ?s1 = _ |- _ =>
             keeps_fact (update_results_keeps_outcome c sc s1) H
         | H : update_metrics ?c ?sc ?s1 = _ |- _ =>
             keeps_fact (update_metrics_keeps_outcome c sc s1) H
         end.

Lemma predict_try_cases pil d p s r s' :
  image_path s = Some p ->
  predict_try pil d p s = (r, s') ->
  (exists e, r = Raise e
     /\ history_tree s' = history_tree s
     /\ prediction_made s' = prediction_made s
     /\ dialogs s' = dialogs s)
  \/ (r = Ok tt
      /\ exists class_index scores c,
           getitem scores class_index = Ok c
           /\ history_tree s' = recorded d p class_index c :: history_tree s
           /\ confidence_scores s' = Some scores
           /\ prediction_made s' = true
           /\ status_var s' = "Prediction complete"
           /\ dialogs s' = dialogs s).
Proof.
  intros Hp. unfold predict_try, add_to_history, logging, bind, lift, gets,
    modify. exec_cases; intros H; injection H as <- <-; outcome_facts;
    unfold outcome_fields in *; cbn in *;
    repeat match goal with
           | K : (_, _) = (_, _) |- _ => injection K as ? ? ? ?
           | K : (_, _, _, _, _) = _ |- _ => injection K as ? ? ? ? ?
           end;
    try (left; eexists; split; [reflexivity|]; split; [congruence|];
         split; congruence).
  all: right; split; [reflexivity|].
  all: match goal with
       | H : getitem ?sc ?ci = Ok ?c |- _ =>
           lazymatch type of sc with
           | list Q => exists ci, sc, c
           end
       end.
  all: repeat split; try congruence.
  all: unfold recorded;
    match goal with Hb : (_ =? 1)%nat = _ |- _ => rewrite Hb end;
    match goal with Ho : image_path _ = Some ?q |- _ =>
      assert (q = p) as -> by congruence
    end; congruence.
Qed.

Lemma predict_cancer_cases (pil : PIL) (d : string) (s : app) :
  let s' := snd (predict_cancer pil d s) in
  (history_tree s' = history_tree s
   /\ prediction_made s' = prediction_made s
   /\ exists msg,
        dialogs s' = (dialogs s ++ [Dialog showerror "Error" msg])%list)
  \/ (exists p class_index scores c,
        image_path s = Some p
        /\ model_loaded s = true
        /\ getitem scores class_index = Ok c
        /\ history_tree s' = recorded d p class_index c :: history_tree s
        /\ confidence_scores s' = Some scores
        /\ prediction_made s' = true
        /\ status_var s' = "Prediction complete"
        /\ progress s' = false
        /\ dialogs s' = dialogs s).
Proof.
  cbv zeta. destruct (predict_guard pil d s) as [G1 G2].
  destruct (model_loaded s) eqn:Hm.
  2:{ left. rewrite G1 by reflexivity. cbn. eauto. }
  destruct (image_path s) as [p|] eqn:Hp.
  2:{ left. rewrite G2 by auto. cbn. eauto. }
  destruct (String.eqb_spec p "") as [->|Hne].
  { left. rewrite G2 by auto. cbn. eauto. }
  destruct (predict_try pil d p (busy s)) as [r s1] eqn:E.
  destruct (predict_try_cases pil d p (busy s) r s1 Hp E)
    as [(e & -> & H1 & H2 & H3) | (-> & ci & sc & c & H1 & H2 & H3 & H4 & H5 & H6)].
  - left. rewrite (predict_cancer_caught pil d s p e s1 Hm Hp Hne E).
    cbn. rewrite H1, H2, H3. eauto.
  - right. exists p, ci, sc, c.
    assert (Hrun : predict_cancer pil d s = (Ok tt, set_progress false s1)).
    { unfold predict_cancer, bind, gets. cbn beta iota.
      rewrite Hm. cbn [negb]. rewrite Hp. destruct p as [|a p]; [congruence|].
      cbn [modify]. unfold try_finally, try_except. fold (busy s).
      rewrite E. reflexivity. }
    rewrite Hrun. cbn in *. repeat split; congruence.
Qed.

(** X13: every call of [predict_cancer] either shows exactly one error dialog
    and leaves the history and the prediction flag alone, or shows none and
    puts exactly one row first in the history, for the selected image. *)
Theorem predict_cancer_outcome (pil : PIL) (d : string) (s : app) :
  let s' := snd (predict_cancer pil d s) in
  (history_tree s' = history_tree s
   /\ prediction_made s' = prediction_made s
   /\ exists msg,
        dialogs s' = (dialogs s ++ [Dialog showerror "Error" msg])%list)
  \/ (exists p class_index scores c,
        image_path s = Some p
        /\ model_loaded s = true
        /\ getitem scores class_index = Ok c
        /\ history_tree s' = recorded d p class_index c :: history_tree s
        /\ confidence_scores s' = Some scores
        /\ prediction_made s' = true
        /\ status_var s' = "Prediction complete"
        /\ progress s' = false
        /\ dialogs s' = dialogs s).
Proof. exact (predict_cancer_cases pil d s). Qed.



Lemma update_results_ok ci scores c tj t s :
  json_getitem (config s) "threshold" = Ok tj ->
  number_of_json tj = Some t ->
  getitem scores ci = Ok c ->
  update_results ci scores s
  = (Ok tt,
     set_confidence_bar (c * 100)
       (set_confidence_label ("Confidence: " +:+ format_percent 2 c)
          (set_result_label (verdict ci c t) s))).
Proof.
  intros Hc Ht Hg. unfold update_results, bind, gets, lift, modify, ge_threshold,
    verdict. cbn beta iota. rewrite Hc, Hg, Ht.
  destruct (ci =? 1)%nat; [destruct (Qlt_le_dec c (number_value t))|];
    reflexivity.
Qed.





(** X14: [update_metrics] raises for every score vector that does not have
    exactly two elements (with the Metrics rows in place): a model with any
    other number of outputs never completes a prediction. *)
Theorem update_metrics_needs_two_scores
    (class_index : nat) (scores : list Q) (s : app) :
  length scores <> 2%nat ->
  (4 <= length (metrics_tree s))%nat ->
  exists e s', update_metrics class_index scores s = (Raise e, s').
Proof.
  intros Hlen Hrows.
  destruct scores as [|a [|b [|c rest]]].
  - unfold update_metrics, bind, lift, modify. cbn. eauto.
  - unfold update_metrics. unfold bind at 1. cbn [modify].
    unfold bind at 1, lift at 1. cbn [barh]. unfold bind at 1. cbn [modify].
    unfold bind at 1, gets at 1. cbn [metrics_tree set_ax1].
    destruct (metrics_tree s) as [|r0 [|r1 [|r2 [|r3 rows]]]] eqn:E;
      cbn [length] in Hrows; try lia.
    cbn [length seq for_each].
    unfold bind at 1, set_metric at 1. cbn [modify].
    unfold bind at 1.
    destruct class_index as [|ci].
    + unfold bind at 1, lift at 1. cbn [getitem lookup list_lookup].
      unfold set_metric at 1. cbn [modify].
      unfold bind at 1. unfold bind at 1, lift at 1.
      cbn [getitem lookup list_lookup]. unfold set_metric at 1. cbn [modify].
      unfold bind at 1. unfold bind at 1, lift at 1.
      cbn [getitem lookup list_lookup]. eauto.
    + unfold bind at 1, lift at 1. cbn [getitem lookup list_lookup]. eauto.
  - cbn in Hlen. congruence.
  - unfold update_metrics, bind, lift, modify. cbn. eauto.
Qed.

(** X14, on the sample application. *)
Lemma update_metrics_needs_two_scores_witness :
  exists e s',
    update_metrics 2 [1 # 5; 3 # 10; 1 # 2]%Q started = (Raise e, s').
Proof.
  apply update_metrics_needs_two_scores.
  - cbn. lia.
  - vm_compute. lia.
Defined.

(** X15: for two scores that sum to 1 and a threshold of at most 0.5, the
    Results tab is positive exactly when the history row says Cancer, and
    negative exactly when it says No Cancer. *)
Theorem labels_agree_on_probabilities
    (s : app) (d p : string) (p0 p1 : Q) (tj : json) (t : number) :
  json_getitem (config s) "threshold" = Ok tj ->
  number_of_json tj = Some t ->
  image_path s = Some p ->
  (p0 + p1 == 1)%Q ->
  (number_value t <= 1 # 2)%Q ->
  exists class_index s1 s2 r,
    np_argmax [p0; p1] = Ok class_index
    /\ update_results class_index [p0; p1] s = (Ok tt, s1)
    /\ add_to_history d class_index [p0; p1] s = (Ok tt, s2)
    /\ history_tree s2 = r :: history_tree s
    /\ (displayed_positive s1 <-> row_result r = "Cancer")
    /\ (displayed_negative s1 <-> row_result r = "No Cancer").
Proof.
  intros Hc Ht Hp Hsum Hhalf.
  unfold np_argmax, argmax_from.
  destruct (Qlt_le_dec p0 p1) as [Hlt|Hge].
  - exists 1%nat. eexists. eexists. eexists.
    split; [reflexivity|].
    split; [apply (update_results_ok 1 [p0; p1] p1 tj t s Hc Ht eq_refl)|].
    split.
    { unfold add_to_history, bind, gets, lift, modify. cbn beta iota.
      rewrite Hp. reflexivity. }
    split; [reflexivity|].
    unfold displayed_positive, displayed_negative, verdict. cbn.
    destruct (Qlt_le_dec p1 (number_value t)) as [Hbad|_].
    + exfalso. lra.
    + split; split; intros H; try reflexivity; discriminate.
  - exists 0%nat. eexists. eexists. eexists.
    split; [reflexivity|].
    split; [apply (update_results_ok 0 [p0; p1] p0 tj t s Hc Ht eq_refl)|].
    split.
    { unfold add_to_history, bind, gets, lift, modify. cbn beta iota.
      rewrite Hp. reflexivity. }
    split; [reflexivity|].
    unfold displayed_positive, displayed_negative, verdict. cbn.
    split; split; intros H; try reflexivity; discriminate.
Qed.

(** X15, on the sample application. *)
Lemma labels_agree_on_probabilities_witness :
  exists s1 r,
    update_results 1 [2 # 5; 3 # 5]%Q slide_uploaded = (Ok tt, s1)
    /\ (displayed_positive s1 <-> row_result r = "Cancer").
Proof.
  destruct (labels_agree_on_probabilities slide_uploaded "2025-01-01 10:00"
              "/data/slide.png" (2 # 5) (3 # 5) (JFloat (1 # 2))
              (NFloat (1 # 2)))
    as (ci & s1 & s2 & r & Ha & Hu & _ & _ & Hpos & _);
    try (vm_compute; reflexivity).
  { cbn. unfold Qle. cbn. lia. }
  assert (ci = 1%nat) as -> by (vm_compute in Ha; congruence).
  exists s1, r. auto.
Defined.

(** ** History *)

Lemma has_slash_app (a b : string) :
  has_slash (a +:+ b) = has_slash a || has_slash b.
Proof.
  induction a as [|x a IH]; [reflexivity|].
  change (has_slash (String x (a +:+ b))
          = has_slash (String x a) || has_slash b).
  cbn [has_slash]. rewrite IH, orb_assoc. reflexivity.
Qed.

Lemma basename_from_no_slash (s acc : string) :
  has_slash acc = false -> has_slash (basename_from acc s) = false.
Proof.
  revert acc. induction s as [|c s IH]; intros acc Hacc; cbn [basename_from].
  - exact Hacc.
  - destruct (Ascii.eqb c "/"%char) eqn:E.
    + apply IH. reflexivity.
    + apply IH. rewrite has_slash_app, Hacc. cbn [has_slash orb].
      rewrite E. reflexivity.
Qed.

Lemma basename_no_slash (path : string) : has_slash (basename path) = false.
Proof. apply basename_from_no_slash. reflexivity. Qed.

Lemma recorded_well_formed d p ci c : well_formed_row (recorded d p ci c).
Proof.
  split; cbn.
  - destruct (ci =? 1)%nat; auto.
  - apply basename_no_slash.
Qed.

Lemma clear_loop (rows : list history_row) :
  forall s, length rows = length (history_tree s) ->
    for_each rows (fun _ =>
      modify (fun s => set_history_tree (tail (history_tree s)) s)) s
    = (Ok tt, set_history_tree [] s).
Proof.
  induction rows as [|r rows IH]; intros s Hlen.
  - destruct (history_tree s) eqn:E; [|discriminate].
    cbn. destruct s; cbn in *; subst; reflexivity.
  - cbn [for_each]. unfold bind at 1. cbn [modify].
    rewrite IH.
    + reflexivity.
    + cbn. destruct (history_tree s); cbn in *; [discriminate|lia].
Qed.

Lemma clear_history_spec (s : app) :
  clear_history s
  = (Ok tt, set_log (log s ++ [(INFO, "History cleared")])
              (set_history_tree [] s)).
Proof.
  unfold clear_history, bind, gets. cbn beta iota.
  rewrite clear_loop by reflexivity. reflexivity.
Qed.

(** X17: [clear_history] empties the history whatever it held and logs one
    record; an export right after it writes no file and shows the
    nothing-to-export notice. *)
Theorem clear_history_empties (s : app) (file_path : string) :
  let s' := set_log (log s ++ [(INFO, "History cleared")])
              (set_history_tree [] s) in
  clear_history s = (Ok tt, s')
  /\ history_tree s' = []
  /\ export_history file_path s'
     = (Ok tt, set_dialogs (dialogs s' ++
          [Dialog showinfo "Info" "No history to export."]) s')
  /\ files (snd (export_history file_path s')) = files s.
Proof.
  cbv zeta. split; [|split; [reflexivity|split; reflexivity]].
  apply clear_history_spec.
Qed.

Lemma step_history (ev : event) (s : app) :
  history_tree (step ev s) = history_tree s
  \/ history_tree (step ev s) = []
  \/ exists r, well_formed_row r
               /\ history_tree (step ev s) = r :: history_tree s.
Proof.
  destruct ev as [pil path|pil d| |fp].
  - left.
    assert (K : keeps history_tree (handle (EvUpload pil path)))
      by (unfold handle, upload_image, upload_try, load_and_display_image,
            messagebox, logging; frame).
    apply K.
  - unfold step, handle.
    destruct (predict_cancer_cases pil d s)
      as [(H & _) | (p & ci & sc & c & _ & _ & _ & H & _)].
    + left. exact H.
    + right. right. exists (recorded d p ci c).
      split; [apply recorded_well_formed | exact H].
  - right. left. unfold step, handle.
    rewrite clear_history_spec. reflexivity.
  - left.
    assert (K : keeps history_tree (handle (EvExport fp)))
      by (unfold handle, export_history, export_try, open_write, file_write,
            messagebox, logging; frame).
    apply K.
Qed.

(** X16: in every state the running application reaches, each history row
    has the result Cancer or No Cancer and a file name without a directory
    separator. *)
Theorem history_rows_well_formed
    (base : string) (lm : string -> result keras_model) (choice : string)
    (fs : gmap string file) (s0 : app) (evs : list event) :
  init base lm choice (blank fs) = (Ok tt, s0) ->
  Forall well_formed_row (history_tree (run evs s0)).
Proof.
  intros H. destruct (init_postcondition _ _ _ _ _ H) as (t & _ & _ & Hh & _).
  assert (G : forall evs s, Forall well_formed_row (history_tree s) ->
                            Forall well_formed_row (history_tree (run evs s))).
  { clear. intros evs. induction evs as [|ev evs IH]; intros s Hs; [exact Hs|].
    cbn [run]. apply IH.
    destruct (step_history ev s) as [-> | [-> | (r & Hr & ->)]]; auto. }
  apply G. rewrite Hh. constructor.
Qed.

(** X16, on the sample application. *)
Lemma history_rows_well_formed_witness :
  Forall well_formed_row (history_tree (run sample_session started)).
Proof.
  apply (history_rows_well_formed "/opt/app" sample_load_model "" ∅ started).
  vm_compute. reflexivity.
Defined.

(** ** Log, dialogs and disk *)

Section Appends.
Context {B : Type} (f : app -> list B).






End Appends.




Lemma export_keeps_other_files (file_path p : string) :
  p <> file_path ->
  keeps (fun s => files s !! p) (export_history file_path).
Proof.
  intros Hne.
  unfold export_history, export_try, open_write, file_write, messagebox,
    logging; frame;
    apply keeps_modify; intros ?; cbn [files set_files];
    apply lookup_insert_ne; congruence.
Qed.

(** X18: the only event that changes a file on disk (the log apart) is an
    export, of a non-empty history, and only the file at the chosen path. *)
Theorem only_export_writes_files (ev : event) (s : app) (p : string) :
  files (step ev s) !! p <> files s !! p ->
  ev = EvExport p /\ history_tree s <> [].
Proof.
  intros H. destruct ev as [pil path|pil d| |fp].
  - destruct H. f_equal.
    assert (K : keeps files (handle (EvUpload pil path)))
      by (unfold handle, upload_image, upload_try, load_and_display_image,
            messagebox, logging; frame).
    apply K.
  - destruct H. f_equal.
    assert (K : keeps files (handle (EvPredict pil d)))
      by (unfold handle, predict_cancer, predict_try, preprocess_image,
            model_predict, update_results, update_metrics, add_to_history,
            set_metric, messagebox, logging; frame).
    apply K.
  - destruct H. f_equal.
    assert (K : keeps files (handle EvClearHistory))
      by (unfold handle, clear_history, logging; frame).
    apply K.
  - destruct (decide (p = fp)) as [->|Hne].
    + split; [reflexivity|]. intros Hh. apply H.
      unfold step, handle, export_history, bind, gets. cbn beta iota.
      rewrite Hh. reflexivity.
    + destruct H. apply (export_keeps_other_files fp p Hne).
Qed.

(** X18, on the sample application. *)
Lemma only_export_writes_files_witness :
  files (step (EvExport "/tmp/history.csv") (run sample_session started))
    !! "/tmp/history.csv"
  <> files (run sample_session started) !! "/tmp/history.csv"
  /\ history_tree (run sample_session started) <> [].
Proof.
  assert (H : files (step (EvExport "/tmp/history.csv")
                       (run sample_session started)) !! "/tmp/history.csv"
              <> files (run sample_session started) !! "/tmp/history.csv")
    by (vm_compute; discriminate).
  split; [exact H|].
  apply (only_export_writes_files (EvExport "/tmp/history.csv")
           (run sample_session started) "/tmp/history.csv" H).
Defined.
